(** * Crypto-tracker: the market-data view model

    A shallow embedding of the data-transforming code of the dashboard:
    - [components/price-chart.tsx]   : [formatTime], [getReducedData];
    - [components/crypto-tracker.tsx]: [fetchCryptos], the loading of the
      favorites, the search filter and [toggleFavorite];
    - [components/crypto-detail.tsx] (the detail view imported by the
      tracker): [fetchCryptoDetail], [fetchHistoricalData] and
      [priceChangePercent].

    Values that arrive from outside the program (response bodies, the
    persisted favorites) are untyped at run time, so they are modelled as
    JavaScript values; what the TypeScript source declares as [string[]] or
    [number] and only ever fills from its own code keeps its type. *)

From Stdlib Require Import List String Ascii Bool Arith ZArith QArith Qround Lia.
From Stdlib Require Import DecimalString.
Import ListNotations.

Set Warnings "-register-all".

Local Open Scope string_scope.
Local Open Scope list_scope.
Local Open Scope nat_scope.

(** ** JavaScript values and exceptions *)

Module JS.

(** A JSON-shaped JavaScript value.  Numbers are IEEE doubles in the
    program; none of the modelled code computes with them, so they are
    carried as rationals.  An object is the list of its own properties. *)
Inductive jsval : Type :=
| VUndefined
| VNull
| VBool (b : bool)
| VNum (q : Q)
| VStr (s : string)
| VArr (elems : list jsval)
| VObj (props : list (string * jsval)).

(** What a [throw] carries: an [Error] instance with its message (this
    covers [TypeError] and [SyntaxError]), or any other value. *)
Inductive thrown : Type :=
| ErrorObj (message : string)
| NonError (v : jsval).

Inductive result (A : Type) : Type :=
| Ok (a : A)
| Throw (e : thrown).
Arguments Ok {A} a.
Arguments Throw {A} e.

Definition bind {A B : Type} (m : result A) (k : A -> result B) : result B :=
  match m with
  | Ok a => k a
  | Throw e => Throw e
  end.

(** The engine's own [TypeError]s.  The message texts follow V8; the
    program only relies on their being [Error] instances. *)
Definition TypeError (what : string) : thrown := ErrorObj what.

Fixpoint lookup (k : string) (ps : list (string * jsval)) : option jsval :=
  match ps with
  | [] => None
  | (k', v) :: ps' => if String.eqb k k' then Some v else lookup k ps'
  end.

(** The own property [k], [undefined] when there is none. *)
Definition own (k : string) (ps : list (string * jsval)) : jsval :=
  match lookup k ps with
  | Some x => x
  | None => VUndefined
  end.

(** [o.k = v] on a fresh object literal: overwrite in place or append. *)
Fixpoint setProp (k : string) (v : jsval) (ps : list (string * jsval))
  : list (string * jsval) :=
  match ps with
  | [] => [(k, v)]
  | (k', v') :: ps' =>
      if String.eqb k k' then (k, v) :: ps' else (k', v') :: setProp k v ps'
  end.

(** [v.k] for a key [k] that is neither an array index nor a property of a
    built-in prototype (every key the program reads by name is such a key):
    reading from [undefined] or [null] throws, an object yields its own
    property, anything else yields [undefined]. *)
Definition getField (v : jsval) (k : string) : result jsval :=
  match v with
  | VUndefined | VNull =>
      Throw (TypeError ("Cannot read properties of undefined or null (reading '" ++ k ++ "')")%string)
  | VObj ps => Ok (own k ps)
  | _ => Ok VUndefined
  end.

Definition indexKey (i : nat) : string := NilZero.string_of_uint (Nat.to_uint i).

Fixpoint chars (s : string) : list jsval :=
  match s with
  | EmptyString => []
  | String c s' => VStr (String c EmptyString) :: chars s'
  end.

(** [v[i]] for a literal index [i]. *)
Definition getIndex (v : jsval) (i : nat) : result jsval :=
  match v with
  | VUndefined | VNull =>
      Throw (TypeError ("Cannot read properties of undefined or null (reading '" ++ indexKey i ++ "')")%string)
  | VArr es => Ok (nth i es VUndefined)
  | VStr s => Ok (nth i (chars s) VUndefined)
  | VObj ps => Ok (own (indexKey i) ps)
  | _ => Ok VUndefined
  end.

Fixpoint indexed_from (i : nat) (vs : list jsval) : list (string * jsval) :=
  match vs with
  | [] => []
  | v :: vs' => (indexKey i, v) :: indexed_from (S i) vs'
  end.

(** The own enumerable properties copied by [{...v}]. *)
Definition spread (v : jsval) : list (string * jsval) :=
  match v with
  | VObj ps => ps
  | VArr es => indexed_from 0 es
  | VStr s => indexed_from 0 (chars s)
  | _ => []
  end.

(** [Array.prototype.map] with a callback that may throw: the first
    exception aborts the traversal. *)
Fixpoint mapM {A B : Type} (f : A -> result B) (l : list A) : result (list B) :=
  match l with
  | [] => Ok []
  | x :: l' => bind (f x) (fun y => bind (mapM f l') (fun ys => Ok (y :: ys)))
  end.

(** [Array.prototype.filter] with a callback that may throw. *)
Fixpoint filterM {A : Type} (f : A -> result bool) (l : list A) : result (list A) :=
  match l with
  | [] => Ok []
  | x :: l' =>
      bind (f x) (fun b =>
      bind (filterM f l') (fun ys => Ok (if b then x :: ys else ys)))
  end.

(** [Array.prototype.filter] with a callback [(element, index) => ...]. *)
Fixpoint filter_index_from {A : Type} (f : A -> nat -> bool) (i : nat) (l : list A)
  : list A :=
  match l with
  | [] => []
  | x :: l' =>
      if f x i then x :: filter_index_from f (S i) l' else filter_index_from f (S i) l'
  end.

Definition filter_index {A : Type} (f : A -> nat -> bool) (l : list A) : list A :=
  filter_index_from f 0 l.

(** [String.prototype.includes]: does [t] occur in [s]? *)
Fixpoint String_includes (s t : string) : bool :=
  if String.prefix t s then true
  else match s with
       | EmptyString => false
       | String _ s' => String_includes s' t
       end.

(** [undefined] and [null], whose properties cannot be read. *)
Definition nullish (v : jsval) : bool :=
  match v with
  | VUndefined | VNull => true
  | _ => false
  end.

(** [Array.prototype.includes] on a [string[]], for an argument of any
    type: only a string can be equal to an element. *)
Definition Array_includes (l : list string) (v : jsval) : bool :=
  match v with
  | VStr s => existsb (String.eqb s) l
  | _ => false
  end.

(** A string is truthy unless it is empty. *)
Definition truthy_string (s : string) : bool :=
  match s with
  | EmptyString => false
  | String _ _ => true
  end.

End JS.
Import JS.

Notation "x <- m ;; k" := (bind m (fun x => k))
  (at level 61, m at next level, right associativity).

(** The five chart windows of the detail view. *)
Inductive TimeRange : Type := R24h | R7d | R30d | R90d | R1y.

(** ** components/price-chart.tsx *)

Module PriceChart.

Record point (num : Type) : Type := { time : num; price : num }.
Arguments time {num} p.
Arguments price {num} p.

Record reduced (num : Type) : Type := { labels : list string; prices : list num }.
Arguments labels {num} r.
Arguments prices {num} r.

(** The three [Date] renderings [formatTime] asks the locale for. *)
Class DateLocale (num : Type) : Type := {
  hourMinute : num -> string;     (* toLocaleTimeString, 2-digit hour and minute *)
  weekdayShort : num -> string;   (* toLocaleDateString, short weekday *)
  monthDay : num -> string        (* toLocaleDateString, short month and day *)
}.

(** The [step] that [getReducedData] computes for [data.length = n]. *)
Definition step (timeRange : TimeRange) (n : nat) : nat :=
  match timeRange with
  | R24h => Nat.max 1 (n / 24)
  | R7d => Nat.max 1 (n / 7)
  | R30d => Nat.max 1 (n / 30)
  | R90d => Nat.max 1 (n / 45)
  | R1y => Nat.max 1 (n / 52)
  end.

Section Chart.
Context {num : Type} `{DateLocale num}.

Definition formatTime (timeRange : TimeRange) (timestamp : num) : string :=
  match timeRange with
  | R24h => hourMinute timestamp
  | R7d => weekdayShort timestamp
  | _ => monthDay timestamp
  end.

Definition getReducedData (data : list (point num)) (timeRange : TimeRange)
  : reduced num :=
  match data with
  | [] => {| labels := []; prices := [] |}
  | _ =>
      let step := step timeRange (List.length data) in
      let reducedData := filter_index (fun _ index => index mod step =? 0) data in
      {| labels := map (fun d => formatTime timeRange (time d)) reducedData;
         prices := map (fun d => price d) reducedData |}
  end.

End Chart.

(** The per-range target of the specification's data model. *)
Definition target (timeRange : TimeRange) : nat :=
  match timeRange with
  | R24h => 24
  | R7d => 7
  | R30d => 30
  | R90d => 45
  | R1y => 52
  end.

(** [ceil (n / d)] on naturals. *)
Definition ceil_div (n d : nat) : nat := (n + d - 1) / d.

End PriceChart.

(** ** The built-ins the components call

    [String.prototype.toLowerCase] (Unicode case mapping) and [JSON.parse]
    belong to the platform, not to the program; the components are
    modelled over any implementation of them. *)
Class Host : Type := {
  toLowerCase : string -> string;
  JSON_parse : string -> result jsval
}.

(** A response as the program observes it: [response.ok] and the outcome of
    [await response.json()].  A rejected [fetch] is [Throw e]. *)
Record Response : Type := { ok : bool; json : result jsval }.

(** [err instanceof Error ? err.message : "An error occurred"] *)
Definition errorMessage (err : thrown) : string :=
  match err with
  | ErrorObj message => message
  | NonError _ => "An error occurred"
  end.

(** Truthiness of an error state ([string | null]), which [error && ...]
    in the tracker and [if (error)] in the detail view test before the
    message is shown: [null] and the empty string are falsy. *)
Definition errorTruthy (error : option string) : bool :=
  match error with
  | Some message => truthy_string message
  | None => false
  end.

(** [data.map(f)] on a value of any type. *)
Definition map_of {B : Type} (what : string) (data : jsval) (f : jsval -> result B)
  : result (list B) :=
  match data with
  | VArr elems => mapM f elems
  | VUndefined | VNull =>
      Throw (TypeError ("Cannot read properties of undefined or null (reading 'map')"))
  | _ => Throw (TypeError (what ++ ".map is not a function")%string)
  end.

(** ** components/crypto-tracker.tsx *)

Module CryptoTracker.

(** The declared shape of a listing record. *)
Record Crypto : Type := {
  id : string;
  symbol : string;
  name : string;
  image : string;
  current_price : Q;
  market_cap : Q;
  market_cap_rank : Q;
  price_change_percentage_24h : Q;
  price_change_percentage_7d_in_currency : option Q;
  sparkline_in_7d : option (list Q);
  favorite : option bool
}.

Definition optional (k : string) (v : option jsval) : list (string * jsval) :=
  match v with
  | Some x => [(k, x)]
  | None => []
  end.

(** The run-time object of a well-shaped record. *)
Definition ofCrypto (c : Crypto) : jsval :=
  VObj ([ ("id", VStr (id c));
          ("symbol", VStr (symbol c));
          ("name", VStr (name c));
          ("image", VStr (image c));
          ("current_price", VNum (current_price c));
          ("market_cap", VNum (market_cap c));
          ("market_cap_rank", VNum (market_cap_rank c));
          ("price_change_percentage_24h", VNum (price_change_percentage_24h c)) ]
        ++ optional "price_change_percentage_7d_in_currency"
             (option_map VNum (price_change_percentage_7d_in_currency c))
        ++ optional "sparkline_in_7d"
             (option_map (fun l => VObj [("price", VArr (map VNum l))]) (sparkline_in_7d c))
        ++ optional "favorite" (option_map VBool (favorite c))).

(** The component's state.  [cryptos] and [filteredCryptos] hold whatever
    the listing request delivered; [favorites] is declared [string[]]. *)
Record State : Type := {
  cryptos : list jsval;
  filteredCryptos : list jsval;
  searchTerm : string;
  loading : bool;
  selectedCrypto : option jsval;
  error : option string;
  favorites : list string
}.

Definition initialState : State :=
  {| cryptos := []; filteredCryptos := []; searchTerm := EmptyString; loading := true;
     selectedCrypto := None; error := None; favorites := [] |}.

Definition setCryptos (v : list jsval) (s : State) : State :=
  {| cryptos := v; filteredCryptos := filteredCryptos s; searchTerm := searchTerm s;
     loading := loading s; selectedCrypto := selectedCrypto s; error := error s;
     favorites := favorites s |}.

Definition setFilteredCryptos (v : list jsval) (s : State) : State :=
  {| cryptos := cryptos s; filteredCryptos := v; searchTerm := searchTerm s;
     loading := loading s; selectedCrypto := selectedCrypto s; error := error s;
     favorites := favorites s |}.

Definition setLoading (v : bool) (s : State) : State :=
  {| cryptos := cryptos s; filteredCryptos := filteredCryptos s; searchTerm := searchTerm s;
     loading := v; selectedCrypto := selectedCrypto s; error := error s;
     favorites := favorites s |}.

Definition setError (v : option string) (s : State) : State :=
  {| cryptos := cryptos s; filteredCryptos := filteredCryptos s; searchTerm := searchTerm s;
     loading := loading s; selectedCrypto := selectedCrypto s; error := v;
     favorites := favorites s |}.

Definition setFavorites (v : list string) (s : State) : State :=
  {| cryptos := cryptos s; filteredCryptos := filteredCryptos s; searchTerm := searchTerm s;
     loading := loading s; selectedCrypto := selectedCrypto s; error := error s;
     favorites := v |}.

(** [{ ...crypto, favorite: favorites.includes(crypto.id) }] *)
Definition withFavorite (favorites : list string) (crypto : jsval) : result jsval :=
  let copied := spread crypto in
  crypto_id <- getField crypto "id" ;;
  Ok (VObj (setProp "favorite" (VBool (Array_includes favorites crypto_id)) copied)).

(** The [try] block of [fetchCryptos], up to the value handed to
    [setCryptos] and [setFilteredCryptos].  [favorites] is the list the
    closure captured; [fetched] is the outcome of [await fetch(...)]. *)
Definition listing (favorites : list string) (fetched : result Response)
  : result (list jsval) :=
  response <- fetched ;;
  if negb (ok response)
  then Throw (ErrorObj "Failed to fetch data. API rate limit may have been reached.")
  else
    data <- json response ;;
    map_of "data" data (withFavorite favorites).

Definition fetchCryptos (favorites : list string) (fetched : result Response) (s : State)
  : State :=
  let s := setError None (setLoading true s) in
  let s :=
    match listing favorites fetched with
    | Ok cryptosWithFavorites =>
        setFilteredCryptos cryptosWithFavorites (setCryptos cryptosWithFavorites s)
    | Throw err => setError (Some (errorMessage err)) s
    end in
  setLoading false s.

(** The mount effect up to [fetchCryptos()]: [savedFavorites] is what
    [localStorage.getItem("cryptoFavorites")] returned ([None] for [null]).
    The result is the argument of the [setFavorites] call, if there is
    one; the parsed value is installed unchecked. *)
Definition loadFavorites `{Host} (savedFavorites : option string)
  : result (option jsval) :=
  match savedFavorites with
  | Some text =>
      if truthy_string text
      then parsed <- JSON_parse text ;; Ok (Some parsed)
      else Ok None
  | None => Ok None
  end.

(** [v.toLowerCase()] on a value of any type. *)
Definition toLowerCase_of `{Host} (v : jsval) : result string :=
  match v with
  | VStr s => Ok (toLowerCase s)
  | VUndefined | VNull =>
      Throw (TypeError "Cannot read properties of undefined or null (reading 'toLowerCase')")
  | _ => Throw (TypeError "toLowerCase is not a function")
  end.

(** The callback of the search filter; [||] evaluates its right operand
    only when the left one is false. *)
Definition matchesSearch `{Host} (searchTerm : string) (crypto : jsval) : result bool :=
  crypto_name <- getField crypto "name" ;;
  lowered_name <- toLowerCase_of crypto_name ;;
  if String_includes lowered_name (toLowerCase searchTerm) then Ok true
  else
    crypto_symbol <- getField crypto "symbol" ;;
    lowered_symbol <- toLowerCase_of crypto_symbol ;;
    Ok (String_includes lowered_symbol (toLowerCase searchTerm)).

(** The effect on [searchTerm] and [cryptos]. *)
Definition searchEffect `{Host} (s : State) : result State :=
  if truthy_string (searchTerm s)
  then
    filtered <- filterM (matchesSearch (searchTerm s)) (cryptos s) ;;
    Ok (setFilteredCryptos filtered s)
  else Ok (setFilteredCryptos (cryptos s) s).

(** The state update of [toggleFavorite]. *)
Definition toggle (id : string) (prev : list string) : list string :=
  if Array_includes prev (VStr id)
  then filter (fun item => negb (String.eqb item id)) prev
  else prev ++ [id].

Definition toggleFavorite (id : string) (s : State) : State :=
  setFavorites (toggle id (favorites s)) s.

(** [favorites.includes(id)], the [isFavorite] flag handed to the detail view. *)
Definition isFavorite (favorites : list string) (id : string) : bool :=
  Array_includes favorites (VStr id).

End CryptoTracker.

(** ** components/crypto-detail.tsx *)

Module CryptoDetail.

Import PriceChart.

Record State : Type := {
  (** [null] until a detail payload has arrived *)
  detailData : jsval;
  loading : bool;
  error : option string;
  timeRange : TimeRange;
  chartData : list (point jsval);
  (** what [console.error] has printed so far *)
  console : list (string * thrown)
}.

Definition initialState : State :=
  {| detailData := VNull; loading := true; error := None; timeRange := R7d;
     chartData := []; console := [] |}.

Definition setDetailData (v : jsval) (s : State) : State :=
  {| detailData := v; loading := loading s; error := error s; timeRange := timeRange s;
     chartData := chartData s; console := console s |}.

Definition setLoading (v : bool) (s : State) : State :=
  {| detailData := detailData s; loading := v; error := error s; timeRange := timeRange s;
     chartData := chartData s; console := console s |}.

Definition setError (v : option string) (s : State) : State :=
  {| detailData := detailData s; loading := loading s; error := v; timeRange := timeRange s;
     chartData := chartData s; console := console s |}.

Definition setTimeRange (v : TimeRange) (s : State) : State :=
  {| detailData := detailData s; loading := loading s; error := error s; timeRange := v;
     chartData := chartData s; console := console s |}.

Definition setChartData (v : list (point jsval)) (s : State) : State :=
  {| detailData := detailData s; loading := loading s; error := error s;
     timeRange := timeRange s; chartData := v; console := console s |}.

Definition console_error (label : string) (err : thrown) (s : State) : State :=
  {| detailData := detailData s; loading := loading s; error := error s;
     timeRange := timeRange s; chartData := chartData s;
     console := console s ++ [(label, err)] |}.

(** The [days] query parameter of the historical request. *)
Definition days (range : TimeRange) : nat :=
  match range with
  | R24h => 1
  | R7d => 7
  | R30d => 30
  | R90d => 90
  | R1y => 365
  end.

(** The [try] block of [fetchHistoricalData], up to the value handed to
    [setChartData]; [fetched] is the outcome of the [market_chart] request
    for [days range]. *)
Definition history (fetched : result Response) : result (list (point jsval)) :=
  response <- fetched ;;
  if negb (ok response)
  then Throw (ErrorObj "Failed to fetch chart data")
  else
    data <- json response ;;
    data_prices <- getField data "prices" ;;
    map_of "data.prices" data_prices (fun item =>
      item_0 <- getIndex item 0 ;;
      item_1 <- getIndex item 1 ;;
      Ok {| time := item_0; price := item_1 |}).

Definition fetchHistoricalData (range : TimeRange) (fetched : result Response) (s : State)
  : State :=
  match history fetched with
  | Ok formattedData => setTimeRange range (setChartData formattedData s)
  | Throw err => console_error "Error fetching historical data:" err s
  end.

(** The [try] block of [fetchCryptoDetail], up to the value handed to
    [setDetailData]. *)
Definition detail (fetched : result Response) : result jsval :=
  response <- fetched ;;
  if negb (ok response)
  then Throw (ErrorObj "Failed to fetch detailed data. API rate limit may have been reached.")
  else json response.

(** [fetchCryptoDetail]: [fetched] is the outcome of the detail request,
    [fetchedHistory] that of the historical request, which is issued only
    after the detail request has succeeded. *)
Definition fetchCryptoDetail (fetched fetchedHistory : result Response) (s : State)
  : State :=
  let s := setError None (setLoading true s) in
  let s :=
    match detail fetched with
    | Ok data => fetchHistoricalData (timeRange s) fetchedHistory (setDetailData data s)
    | Throw err => setError (Some (errorMessage err)) s
    end in
  setLoading false s.

(** The key computed by the template literal of [priceChangePercent]. *)
Definition priceChangeKey (timeRange : TimeRange) : string :=
  ("price_change_percentage_" ++
   match timeRange with
   | R24h => "24h"
   | R7d => "7d"
   | R30d => "30d"
   | R90d => "60d"
   | R1y => "1y"
   end)%string.

(** [detailData.market_data[key]] *)
Definition priceChangePercent (detailData : jsval) (timeRange : TimeRange) : result jsval :=
  market_data <- getField detailData "market_data" ;;
  getField market_data (priceChangeKey timeRange).

End CryptoDetail.

(** ** A concrete host

    Strings of the model are byte strings; [ascii_host] lowers the letters
    [A]..[Z] and parses JSON text (RFC 8259).  A [\u] escape above
    [00FF] has no byte to stand for it and is rejected. *)

Module Json.

Definition syntaxError : thrown := ErrorObj "Unexpected token in JSON".

Definition is_ws (c : ascii) : bool :=
  let n := nat_of_ascii c in
  (n =? 32) || (n =? 9) || (n =? 10) || (n =? 13).

Fixpoint skip_ws (s : string) : string :=
  match s with
  | String c s' => if is_ws c then skip_ws s' else s
  | EmptyString => s
  end.

Definition digit (c : ascii) : option Z :=
  let n := nat_of_ascii c in
  if (48 <=? n) && (n <=? 57) then Some (Z.of_nat (n - 48)) else None.

Definition hex_digit (c : ascii) : option nat :=
  let n := nat_of_ascii c in
  if (48 <=? n) && (n <=? 57) then Some (n - 48)
  else if (65 <=? n) && (n <=? 70) then Some (n - 55)
  else if (97 <=? n) && (n <=? 102) then Some (n - 87)
  else None.

(** Reads digits: the number they spell after [acc], how many there
    were, and the rest. *)
Fixpoint digits (acc : Z) (count : nat) (s : string) : Z * nat * string :=
  match s with
  | String c s' =>
      match digit c with
      | Some d => digits (10 * acc + d)%Z (S count) s'
      | None => (acc, count, s)
      end
  | EmptyString => (acc, count, s)
  end.

Definition power10 (e : Z) : Q :=
  if (0 <=? e)%Z then inject_Z (10 ^ e) else Qinv (inject_Z (10 ^ (- e))).

Fixpoint drop (n : nat) (s : string) : string :=
  match n, s with
  | S n', String _ s' => drop n' s'
  | _, _ => s
  end.

Definition expect (lit : string) (v : jsval) (s : string) : option (jsval * string) :=
  if String.prefix lit s then Some (v, drop (String.length lit) s) else None.

(** The exponent part, if there is one. *)
Definition exponent (s : string) : option (Z * string) :=
  match s with
  | String c s1 =>
      if (nat_of_ascii c =? 101) || (nat_of_ascii c =? 69)
      then
        let '(sign, s2) :=
          match s1 with
          | String "+" r => (1%Z, r)
          | String "-" r => ((-1)%Z, r)
          | _ => (1%Z, s1)
          end in
        let '(e, k, s3) := digits 0 0 s2 in
        if k =? 0 then None else Some ((sign * e)%Z, s3)
      else Some (0%Z, s)
  | EmptyString => Some (0%Z, s)
  end.

(** The fraction part, if there is one, read after the integer part. *)
Definition fraction (int_part : Z) (s : string) : option (Z * nat * string) :=
  match s with
  | String "." s1 =>
      let '(m, k, s2) := digits int_part 0 s1 in
      if k =? 0 then None else Some (m, k, s2)
  | _ => Some (int_part, 0, s)
  end.

(** [int frac? exp?] after the optional sign. *)
Definition number (negative : bool) (s : string) : option (jsval * string) :=
  let '(int_part, int_count, s1) := digits 0 0 s in
  let leading_zero :=
    match s with
    | String c _ => (nat_of_ascii c =? 48) && (1 <? int_count)
    | EmptyString => false
    end in
  if (int_count =? 0) || leading_zero then None
  else
    match fraction int_part s1 with
    | None => None
    | Some (mantissa, frac_count, s2) =>
        match exponent s2 with
        | None => None
        | Some (e, s3) =>
            let magnitude :=
              Qred (Qmult (inject_Z mantissa) (power10 (e - Z.of_nat frac_count))) in
            Some (VNum (if negative then Qopp magnitude else magnitude), s3)
        end
    end.

Definition escape (m : nat) : option nat :=
  if m =? 34 then Some 34
  else if m =? 92 then Some 92
  else if m =? 47 then Some 47
  else if m =? 98 then Some 8
  else if m =? 102 then Some 12
  else if m =? 110 then Some 10
  else if m =? 114 then Some 13
  else if m =? 116 then Some 9
  else None.

(** The characters of a string literal after its opening quote. *)
Fixpoint string_body (s : string) : option (string * string) :=
  let cons (c : ascii) (r : option (string * string)) :=
    match r with
    | Some (body, rest) => Some (String c body, rest)
    | None => None
    end in
  match s with
  | EmptyString => None
  | String c s1 =>
      let n := nat_of_ascii c in
      if n =? 34 then Some (EmptyString, s1)
      else if n <? 32 then None
      else if n =? 92 then
        match s1 with
        | String e s2 =>
            if nat_of_ascii e =? 117 then
              match s2 with
              | String h1 (String h2 (String h3 (String h4 s6))) =>
                  match hex_digit h1, hex_digit h2, hex_digit h3, hex_digit h4 with
                  | Some 0, Some 0, Some a, Some b =>
                      cons (ascii_of_nat (16 * a + b)) (string_body s6)
                  | _, _, _, _ => None
                  end
              | _ => None
              end
            else
              match escape (nat_of_ascii e) with
              | Some b => cons (ascii_of_nat b) (string_body s2)
              | None => None
              end
        | EmptyString => None
        end
      else cons c (string_body s1)
  end.

Fixpoint value (fuel : nat) (s : string) : option (jsval * string) :=
  match fuel with
  | 0 => None
  | S fuel' =>
      match skip_ws s with
      | EmptyString => None
      | String c s1 =>
          let n := nat_of_ascii c in
          if n =? 110 then expect "null" VNull (String c s1)
          else if n =? 116 then expect "true" (VBool true) (String c s1)
          else if n =? 102 then expect "false" (VBool false) (String c s1)
          else if n =? 34 then
            match string_body s1 with
            | Some (body, rest) => Some (VStr body, rest)
            | None => None
            end
          else if n =? 45 then number true s1
          else if n =? 91 then
            match skip_ws s1 with
            | String "]" rest => Some (VArr [], rest)
            | _ => elements fuel' [] s1
            end
          else if n =? 123 then
            match skip_ws s1 with
            | String "}" rest => Some (VObj [], rest)
            | _ => members fuel' [] s1
            end
          else number false (String c s1)
      end
  end
with elements (fuel : nat) (acc : list jsval) (s : string) : option (jsval * string) :=
  match fuel with
  | 0 => None
  | S fuel' =>
      match value fuel' s with
      | Some (v, rest) =>
          match skip_ws rest with
          | String "," r => elements fuel' (acc ++ [v]) r
          | String "]" r => Some (VArr (acc ++ [v]), r)
          | _ => None
          end
      | None => None
      end
  end
with members (fuel : nat) (acc : list (string * jsval)) (s : string)
  : option (jsval * string) :=
  match fuel with
  | 0 => None
  | S fuel' =>
      match skip_ws s with
      | String c s1 =>
          if nat_of_ascii c =? 34 then
            match string_body s1 with
            | Some (key, rest) =>
                match skip_ws rest with
                | String ":" s2 =>
                    match value fuel' s2 with
                    | Some (v, s3) =>
                        match skip_ws s3 with
                        | String "," r => members fuel' (setProp key v acc) r
                        | String "}" r => Some (VObj (setProp key v acc), r)
                        | _ => None
                        end
                    | None => None
                    end
                | _ => None
                end
            | None => None
            end
          else None
      | EmptyString => None
      end
  end.

Definition parse (text : string) : result jsval :=
  match value (2 * String.length text + 2) text with
  | Some (v, rest) =>
      match skip_ws rest with
      | EmptyString => Ok v
      | String _ _ => Throw syntaxError
      end
  | None => Throw syntaxError
  end.

Definition lower (c : ascii) : ascii :=
  let n := nat_of_ascii c in
  if (65 <=? n) && (n <=? 90) then ascii_of_nat (n + 32) else c.

Fixpoint lower_string (s : string) : string :=
  match s with
  | EmptyString => EmptyString
  | String c s' => String (lower c) (lower_string s')
  end.

End Json.

#[export] Instance ascii_host : Host := {|
  toLowerCase := Json.lower_string;
  JSON_parse := Json.parse
|}.

(** ** A concrete locale and sample series

    [formatTime] leaves the rendering to the browser's locale.  The
    instance below is one such locale (UTC, 24-hour clock, day before
    month), over timestamps in epoch milliseconds. *)

Module UTC.

Local Open Scope Z_scope.

Definition decimal (z : Z) : string := NilZero.string_of_uint (N.to_uint (Z.to_N z)).

Definition two_digits (z : Z) : string :=
  if z <? 10 then ("0" ++ decimal z)%string else decimal z.

Definition millis (q : Q) : Z := Qfloor q.

Definition days_since_epoch (q : Q) : Z := millis q / 86400000.

Definition hourMinute (q : Q) : string :=
  let minutes := (millis q / 60000) mod 1440 in
  (two_digits (minutes / 60) ++ ":" ++ two_digits (minutes mod 60))%string.

Definition weekdayShort (q : Q) : string :=
  match (days_since_epoch q + 4) mod 7 with
  | 0 => "Sun" | 1 => "Mon" | 2 => "Tue" | 3 => "Wed"
  | 4 => "Thu" | 5 => "Fri" | _ => "Sat"
  end.

(** Day of month and month (1..12) of a day count, proleptic Gregorian. *)
Definition civil (days : Z) : Z * Z :=
  let z := days + 719468 in
  let era := z / 146097 in
  let doe := z - era * 146097 in
  let yoe := (doe - doe / 1460 + doe / 36524 - doe / 146096) / 365 in
  let doy := doe - (365 * yoe + yoe / 4 - yoe / 100) in
  let mp := (5 * doy + 2) / 153 in
  (doy - (153 * mp + 2) / 5 + 1, if mp <? 10 then mp + 3 else mp - 9).

Definition monthName (m : Z) : string :=
  match m with
  | 1 => "Jan" | 2 => "Feb" | 3 => "Mar" | 4 => "Apr" | 5 => "May" | 6 => "Jun"
  | 7 => "Jul" | 8 => "Aug" | 9 => "Sep" | 10 => "Oct" | 11 => "Nov" | _ => "Dec"
  end.

Definition monthDay (q : Q) : string :=
  let '(d, m) := civil (days_since_epoch q) in
  (decimal d ++ " " ++ monthName m)%string.

End UTC.

#[export] Instance utc_locale : PriceChart.DateLocale Q := {|
  PriceChart.hourMinute := UTC.hourMinute;
  PriceChart.weekdayShort := UTC.weekdayShort;
  PriceChart.monthDay := UTC.monthDay
|}.

Module Samples.

(** [n] hourly points starting at [2024-01-01T00:00Z], at index [i] the
    price [100 + i]. *)
Fixpoint hourly_from (i n : nat) : list (PriceChart.point Q) :=
  match n with
  | 0 => []
  | S n' =>
      {| PriceChart.time := inject_Z (1704067200000 + 3600000 * Z.of_nat i);
         PriceChart.price := inject_Z (100 + Z.of_nat i) |}
      :: hourly_from (S i) n'
  end.

Definition hourly (n : nat) : list (PriceChart.point Q) := hourly_from 0 n.

(** Two listing records, a snapshot holding them, and a detail payload. *)
Definition bitcoin : CryptoTracker.Crypto :=
  {| CryptoTracker.id := "bitcoin"; CryptoTracker.symbol := "btc";
     CryptoTracker.name := "Bitcoin"; CryptoTracker.image := "btc.png";
     CryptoTracker.current_price := 64250.5%Q; CryptoTracker.market_cap := 1265000000000%Q;
     CryptoTracker.market_cap_rank := 1%Q;
     CryptoTracker.price_change_percentage_24h := (-1.25)%Q;
     CryptoTracker.price_change_percentage_7d_in_currency := Some 3.5%Q;
     CryptoTracker.sparkline_in_7d := Some [64000%Q; 64250.5%Q];
     CryptoTracker.favorite := None |}.

Definition ethereum : CryptoTracker.Crypto :=
  {| CryptoTracker.id := "ethereum"; CryptoTracker.symbol := "eth";
     CryptoTracker.name := "Ethereum"; CryptoTracker.image := "eth.png";
     CryptoTracker.current_price := 3150%Q; CryptoTracker.market_cap := 378000000000%Q;
     CryptoTracker.market_cap_rank := 2%Q;
     CryptoTracker.price_change_percentage_24h := 0.75%Q;
     CryptoTracker.price_change_percentage_7d_in_currency := None;
     CryptoTracker.sparkline_in_7d := None;
     CryptoTracker.favorite := None |}.

Definition snapshot : CryptoTracker.State :=
  {| CryptoTracker.cryptos := map CryptoTracker.ofCrypto [bitcoin; ethereum];
     CryptoTracker.filteredCryptos := map CryptoTracker.ofCrypto [bitcoin; ethereum];
     CryptoTracker.searchTerm := EmptyString;
     CryptoTracker.loading := false;
     CryptoTracker.selectedCrypto := None;
     CryptoTracker.error := None;
     CryptoTracker.favorites := ["ethereum"] |}.

Definition searching (term : string) : CryptoTracker.State :=
  {| CryptoTracker.cryptos := CryptoTracker.cryptos snapshot;
     CryptoTracker.filteredCryptos := CryptoTracker.filteredCryptos snapshot;
     CryptoTracker.searchTerm := term;
     CryptoTracker.loading := false;
     CryptoTracker.selectedCrypto := None;
     CryptoTracker.error := None;
     CryptoTracker.favorites := CryptoTracker.favorites snapshot |}.

(** A response with status 429. *)
Definition too_many_requests : result Response :=
  Ok {| ok := false; json := Ok (VObj [("status", VObj [("error_code", VNum 429)])]) |}.

(** A successful response whose body is a JSON array, but not of listing
    records. *)
Definition not_a_listing : result Response :=
  Ok {| ok := true; json := Ok (VArr [VObj [("error", VStr "unexpected payload")]]) |}.

Definition detail_payload : jsval :=
  VObj [("id", VStr "bitcoin");
        ("market_data",
         VObj [("price_change_percentage_24h", VNum (-1.25)%Q);
               ("price_change_percentage_7d", VNum 3.5%Q);
               ("price_change_percentage_30d", VNum 8%Q);
               ("price_change_percentage_60d", VNum 12.5%Q);
               ("price_change_percentage_90d", VNum 99%Q);
               ("price_change_percentage_1y", VNum 140%Q)])].

(** The detail view once a detail payload and a chart are on display. *)
Definition showing : CryptoDetail.State :=
  {| CryptoDetail.detailData := detail_payload;
     CryptoDetail.loading := false;
     CryptoDetail.error := None;
     CryptoDetail.timeRange := R7d;
     CryptoDetail.chartData :=
       [ {| PriceChart.time := VNum 1704067200000%Q; PriceChart.price := VNum 64000%Q |} ];
     CryptoDetail.console := [] |}.

End Samples.

(** ** components/price-chart.tsx: the number formats of the chart options

    Both formats are chosen from [prices[0]], the first price on display;
    with no price on display the comparison [undefined < 1] is false. *)

Module ChartOptions.

(** [prices[0] < 1] *)
Definition firstBelowOne (prices : list Q) : bool :=
  match prices with
  | p :: _ => negb (Qle_bool 1 p)
  | [] => false
  end.

(** [minimumFractionDigits] and [maximumFractionDigits] of the tooltip label. *)
Definition tooltipFractionDigits (prices : list Q) : nat :=
  if firstBelowOne prices then 6 else 2.

(** [minimumFractionDigits] and [maximumFractionDigits] of the ticks of the
    price axis. *)
Definition axisFractionDigits (prices : list Q) : nat :=
  if firstBelowOne prices then 2 else 0.

End ChartOptions.

(** ** components/crypto-tracker.tsx: the favorites effect and the tabs *)

(** [JSON.stringify] on a [string[]], the other built-in of the platform
    that the tracker calls. *)
Class Serializer : Type := {
  JSON_stringify : list string -> string
}.

Module TrackerEffects.

Import CryptoTracker.

(** [localStorage]: the item stored under each key, if any. *)
Definition Storage : Type := string -> option string.

Definition getItem (store : Storage) (key : string) : option string := store key.

Definition setItem (store : Storage) (key value : string) : Storage :=
  fun k => if String.eqb k key then Some value else store k.

Definition emptyStorage : Storage := fun _ => None.

(** The effect on [favorites]: the list is written to the storage, then
    the state updater re-tags the snapshot. *)
Definition favoritesEffect `{Serializer} (store : Storage) (s : State)
  : Storage * result State :=
  let store := setItem store "cryptoFavorites" (JSON_stringify (favorites s)) in
  (store,
   updated <- mapM (withFavorite (favorites s)) (cryptos s) ;;
   Ok (setCryptos updated s)).

(** The first statements of the mount effect, reading the storage. *)
Definition loadSavedFavorites `{Host} (store : Storage) : result (option jsval) :=
  loadFavorites (getItem store "cryptoFavorites").

(** [filteredCryptos.filter((crypto) => favorites.includes(crypto.id))],
    the rows handed to the table of the favorites tab. *)
Definition favoriteRows (favorites : list string) (filteredCryptos : list jsval)
  : result (list jsval) :=
  filterM (fun crypto =>
             crypto_id <- getField crypto "id" ;;
             Ok (Array_includes favorites crypto_id))
          filteredCryptos.

(** Which of its three [return]s the table component (imported as
    [./crypto-table]) takes.  [Rows rows] is the third one, the table that
    maps [rows] into table rows; that markup reads the fields of each row
    and is not modelled here: it renders rows that are well-shaped
    records, and throws for instance on a [null] row and on a row without
    [market_cap]. *)
Inductive TableView : Type :=
| Skeleton
| EmptyMessage (message : string)
| Rows (rows : list jsval).

(** The guards of the table component; [emptyMessage] is [None] when the
    property is not passed. *)
Definition CryptoTable (cryptos : list jsval) (loading : bool)
           (emptyMessage : option string) : TableView :=
  let emptyMessage :=
    match emptyMessage with
    | Some message => message
    | None => "No cryptocurrencies found."
    end in
  if loading then Skeleton
  else match cryptos with
       | [] => EmptyMessage emptyMessage
       | _ => Rows cryptos
       end.

Inductive Tab : Type := AllTab | FavoritesTab.

(** The table inside each [TabsContent]. *)
Definition tabContent (tab : Tab) (s : State) : result TableView :=
  match tab with
  | AllTab => Ok (CryptoTable (filteredCryptos s) (loading s) None)
  | FavoritesTab =>
      rows <- favoriteRows (favorites s) (filteredCryptos s) ;;
      Ok (CryptoTable rows (loading s)
            (Some "No favorite cryptocurrencies yet. Add some from the All Cryptocurrencies tab."))
  end.

(** A well-shaped record with its [favorite] flag set from a favorites list. *)
Definition tagged (favorites : list string) (c : Crypto) : Crypto :=
  {| id := id c; symbol := symbol c; name := name c; image := image c;
     current_price := current_price c; market_cap := market_cap c;
     market_cap_rank := market_cap_rank c;
     price_change_percentage_24h := price_change_percentage_24h c;
     price_change_percentage_7d_in_currency := price_change_percentage_7d_in_currency c;
     sparkline_in_7d := sparkline_in_7d c;
     favorite := Some (isFavorite favorites (id c)) |}.

End TrackerEffects.

(** ** components/crypto-detail.tsx: the early returns of the detail view *)

Module DetailView.

Import CryptoDetail.

(** JavaScript truthiness. *)
Definition truthy (v : jsval) : bool :=
  match v with
  | VUndefined | VNull => false
  | VBool b => b
  | VNum q => negb (Qeq_bool q 0)
  | VStr s => truthy_string s
  | VArr _ | VObj _ => true
  end.

(** What the component returns before it looks into the payload. *)
Inductive EarlyReturn : Type :=
| Skeleton
| ErrorPanel (message : string)
| Nothing.

(** The three early returns of the component, in their order; [None] when
    none of them is taken, and the component goes on to build the detail
    markup from the payload. *)
Definition earlyReturn (s : State) : option EarlyReturn :=
  if loading s then Some Skeleton
  else
    match error s with
    | Some message =>
        if truthy_string message then Some (ErrorPanel message)
        else if truthy (detailData s) then None else Some Nothing
    | None => if truthy (detailData s) then None else Some Nothing
    end.

(** The component up to its first statement after the early returns: an
    early return, or the [priceChangePercent] read from the payload for
    the selected range.  The markup built after that reads further
    fields of the payload and is not modelled. *)
Definition renderHead (s : State) : result (EarlyReturn + jsval) :=
  match earlyReturn s with
  | Some returned => Ok (inl returned)
  | None =>
      percent <- priceChangePercent (detailData s) (timeRange s) ;;
      Ok (inr percent)
  end.

End DetailView.

(** ** [JSON.stringify] for the concrete host *)

Module JsonText.

Definition hex (n : nat) : ascii :=
  if n <? 10 then ascii_of_nat (48 + n) else ascii_of_nat (87 + n).

(** One character of a string literal, escaped as [JSON.stringify] does. *)
Definition quoted_char (c : ascii) : string :=
  let n := nat_of_ascii c in
  let backslash := ascii_of_nat 92 in
  let escaped (e : nat) := String backslash (String (ascii_of_nat e) EmptyString) in
  if n =? 34 then escaped 34
  else if n =? 92 then escaped 92
  else if n =? 8 then escaped 98
  else if n =? 12 then escaped 102
  else if n =? 10 then escaped 110
  else if n =? 13 then escaped 114
  else if n =? 9 then escaped 116
  else if n <? 32 then
    String backslash (String "u" (String "0" (String "0"
      (String (hex (n / 16)) (String (hex (n mod 16)) EmptyString)))))
  else String c EmptyString.

Fixpoint quoted_body (s : string) : string :=
  match s with
  | EmptyString => EmptyString
  | String c s' => (quoted_char c ++ quoted_body s')%string
  end.

Definition quote : string := String (ascii_of_nat 34) EmptyString.

Definition quoted (s : string) : string := (quote ++ quoted_body s ++ quote)%string.

Fixpoint separated (items : list string) : string :=
  match items with
  | [] => EmptyString
  | [item] => item
  | item :: rest => (item ++ "," ++ separated rest)%string
  end.

Definition stringify (items : list string) : string :=
  ("[" ++ separated (map quoted items) ++ "]")%string.

End JsonText.

#[export] Instance ascii_serializer : Serializer := {|
  JSON_stringify := JsonText.stringify
|}.

(** ** More sample data *)

Module MoreSamples.

(** Two [[time, price]] pairs and a chart response made of them. *)
Definition chart_pairs : list (jsval * jsval) :=
  [ (VNum 1704067200000%Q, VNum 64000%Q); (VNum 1704070800000%Q, VNum 64250.5%Q) ].

Definition chart_body : list (string * jsval) :=
  [ ("prices", VArr [ VArr [VNum 1704067200000%Q; VNum 64000%Q];
                      VArr [VNum 1704070800000%Q; VNum 64250.5%Q] ]);
    ("market_caps", VArr []);
    ("total_volumes", VArr []) ].

Definition chart_response : result Response :=
  Ok {| ok := true; json := Ok (VObj chart_body) |}.

Definition detail_response : result Response :=
  Ok {| ok := true; json := Ok Samples.detail_payload |}.


(** A listing response made of the two sample records. *)
Definition listing_response : result Response :=
  Ok {| ok := true;
        json := Ok (VArr (map CryptoTracker.ofCrypto [Samples.bitcoin; Samples.ethereum])) |}.

End MoreSamples.

(** The UTC locale on run-time values: what is not a number is no date. *)
#[export] Instance value_locale : PriceChart.DateLocale jsval := {|
  PriceChart.hourMinute := fun v =>
    match v with VNum q => UTC.hourMinute q | _ => "Invalid Date" end;
  PriceChart.weekdayShort := fun v =>
    match v with VNum q => UTC.weekdayShort q | _ => "Invalid Date" end;
  PriceChart.monthDay := fun v =>
    match v with VNum q => UTC.monthDay q | _ => "Invalid Date" end
|}.

(** ** Notions of the specification *)

(** [t] is a substring of [s]. *)
Definition occurs_in (t s : string) : Prop :=
  exists before after : string, s = (before ++ t ++ after)%string.

(** The invariant of the index filter: at index [i], [d] elements are
    still to be skipped before the next index that is a multiple of [s]. *)
Definition next_kept (s i d : nat) : Prop := d < s /\ exists q, i + d = q * s.

(** The verdict of the search filter on a well-shaped record. *)
Definition matches `{Host} (term : string) (c : CryptoTracker.Crypto) : bool :=
  String_includes (toLowerCase (CryptoTracker.name c)) (toLowerCase term)
  || String_includes (toLowerCase (CryptoTracker.symbol c)) (toLowerCase term).

(* ================================================================== *)
(** * Properties *)

(** ** The series reducer *)

Section ReducerFacts.
Import PriceChart.

Lemma step_ge_1 (r : TimeRange) (n : nat) : 1 <= step r n.
Proof. destruct r; cbn [step]; apply Nat.le_max_l. Qed.

Lemma step_eq_target (r : TimeRange) (n : nat) :
  step r n = Nat.max 1 (n / target r).
Proof. destruct r; reflexivity. Qed.

Lemma next_kept_mod (s i d : nat) :
  next_kept s i d -> (i mod s =? 0) = (d =? 0).
Proof.
  intros [Hd [q Hq]].
  destruct (Nat.eqb_spec d 0) as [->|Hne].
  - apply Nat.eqb_eq. rewrite Nat.add_0_r in Hq. subst i.
    apply Nat.Div0.mod_mul.
  - apply Nat.eqb_neq. intros Hm.
    apply Nat.Div0.mod_divides in Hm. destruct Hm as [c Hc].
    destruct (Nat.le_gt_cases q c) as [Hle|Hgt]; nia.
Qed.

Lemma next_kept_after_keep (s i : nat) :
  next_kept s i 0 -> next_kept s (S i) (s - 1).
Proof. intros [Hd [q Hq]]. split; [lia|]. exists (S q). lia. Qed.

Lemma next_kept_after_skip (s i d : nat) :
  next_kept s i (S d) -> next_kept s (S i) d.
Proof. intros [Hd [q Hq]]. split; [lia|]. exists q. lia. Qed.

Lemma filter_index_from_nth {A : Type} (s : nat) (l : list A) :
  forall i d k, next_kept s i d ->
    nth_error (filter_index_from (fun _ index => index mod s =? 0) i l) k
    = nth_error l (d + k * s).
Proof.
  induction l as [|x l IH]; intros i d k Hk; cbn [filter_index_from].
  - now rewrite !nth_error_nil.
  - rewrite (next_kept_mod _ _ _ Hk). destruct d as [|d]; cbn [Nat.eqb].
    + destruct k as [|k]; [reflexivity|].
      cbn [nth_error]. rewrite (IH (S i) (s - 1) k (next_kept_after_keep _ _ Hk)).
      destruct Hk as [Hs _].
      replace (0 + S k * s) with (S (s - 1 + k * s)) by lia. reflexivity.
    + rewrite (IH (S i) d k (next_kept_after_skip _ _ _ Hk)). reflexivity.
Qed.

Lemma filter_index_from_length {A : Type} (s : nat) (l : list A) :
  forall i d, next_kept s i d ->
    List.length (filter_index_from (fun _ index => index mod s =? 0) i l)
    = (List.length l + s - 1 - d) / s.
Proof.
  induction l as [|x l IH]; intros i d Hk; cbn [filter_index_from List.length].
  - destruct Hk as [Hs _]. symmetry. apply Nat.div_small. lia.
  - rewrite (next_kept_mod _ _ _ Hk). destruct d as [|d]; cbn [Nat.eqb].
    + cbn [List.length]. rewrite (IH (S i) (s - 1) (next_kept_after_keep _ _ Hk)).
      destruct Hk as [Hs _].
      replace (List.length l + s - 1 - (s - 1)) with (List.length l) by lia.
      replace (S (List.length l) + s - 1 - 0) with (List.length l + 1 * s) by lia.
      rewrite Nat.div_add by lia. lia.
    + rewrite (IH (S i) d (next_kept_after_skip _ _ _ Hk)).
      f_equal. lia.
Qed.

Lemma next_kept_start (s : nat) : 1 <= s -> next_kept s 0 0.
Proof. intros Hs. split; [lia|]. now exists 0. Qed.

End ReducerFacts.

Section ReducerTheorems.
Context {num : Type} `{PriceChart.DateLocale num}.
Import PriceChart.

Lemma reduced_prices_labels (data : list (point num)) (r : TimeRange) :
  let kept := filter_index (fun _ index => index mod step r (List.length data) =? 0) data in
  prices (getReducedData data r) = map price kept /\
  labels (getReducedData data r) = map (fun d => formatTime r (time d)) kept.
Proof. destruct data; split; reflexivity. Qed.

Lemma kept_length (data : list (point num)) (r : TimeRange) :
  List.length (filter_index (fun _ index => index mod step r (List.length data) =? 0) data)
  = ceil_div (List.length data) (step r (List.length data)).
Proof.
  pose proof (step_ge_1 r (List.length data)) as Hs.
  unfold filter_index, ceil_div.
  rewrite (filter_index_from_length _ _ 0 0 (next_kept_start _ Hs)).
  f_equal. lia.
Qed.

Lemma ceil_div_bounds (n s : nat) :
  1 <= s -> n <= ceil_div n s * s /\ ceil_div n s * s < n + s.
Proof.
  intros Hs. unfold ceil_div.
  pose proof (Nat.div_mod_eq (n + s - 1) s) as Hdm.
  pose proof (Nat.mod_upper_bound (n + s - 1) s) as Hlt.
  split; nia.
Qed.

(** C1. For every raw series and range, [prices] and [labels] of the
    reduced data have [ceil (n / step)] entries, where
    [step = max 1 (floor (n / target r))] is at least 1 and [n] is the
    length of the raw series; that number [len] is the one with
    [n <= len * step < n + step]; the empty series is reduced to the
    empty series. *)
Theorem reduced_length (data : list (point num)) (r : TimeRange) :
  let n := List.length data in
  let s := step r n in
  let out := getReducedData data r in
  s = Nat.max 1 (n / target r) /\
  1 <= s /\
  List.length (prices out) = ceil_div n s /\
  List.length (labels out) = ceil_div n s /\
  (n <= List.length (prices out) * s /\ List.length (prices out) * s < n + s) /\
  (n = 0 -> prices out = [] /\ labels out = []).
Proof.
  cbv zeta.
  destruct (reduced_prices_labels data r) as [Hp Hl].
  pose proof (step_ge_1 r (List.length data)) as Hs.
  rewrite Hp, Hl, !length_map, kept_length.
  repeat split.
  - apply step_eq_target.
  - exact Hs.
  - apply ceil_div_bounds, Hs.
  - apply ceil_div_bounds, Hs.
  - destruct data; [reflexivity|discriminate].
  - destruct data; [reflexivity|discriminate].
Qed.

(** C2, as amended.  The reduced series has at most [2 * target r - 1]
    points; it has at most [target r] points when the raw series has at
    most [target r] points or a multiple of [target r] points. *)
Theorem reduced_length_bound (data : list (point num)) (r : TimeRange) :
  let n := List.length data in
  let len := List.length (prices (getReducedData data r)) in
  len <= 2 * target r - 1 /\
  (n <= target r -> len <= target r) /\
  (n mod target r = 0 -> len <= target r).
Proof.
  cbv zeta.
  destruct (reduced_prices_labels data r) as [Hp _].
  rewrite Hp, length_map, kept_length, step_eq_target.
  set (n := List.length data). set (t := target r).
  assert (Ht : 2 <= t) by (subst t; destruct r; cbn; lia).
  pose proof (Nat.div_mod_eq n t) as Hdm.
  pose proof (Nat.mod_upper_bound n t) as Hlt.
  unfold ceil_div.
  destruct (Nat.eq_dec (n / t) 0) as [Hq|Hq].
  - rewrite Hq. cbn [Nat.max]. rewrite Nat.div_1_r.
    rewrite Hq in Hdm. repeat split; intros; lia.
  - replace (Nat.max 1 (n / t)) with (n / t) by lia.
    set (q := n / t) in *.
    repeat split.
    + apply Nat.lt_succ_r. replace (S (2 * t - 1)) with (2 * t) by lia.
      apply Nat.Div0.div_lt_upper_bound. nia.
    + intros Hle. assert (q = 1) by nia. subst q.
      apply Nat.lt_succ_r. apply Nat.Div0.div_lt_upper_bound. nia.
    + intros Hm. apply Nat.lt_succ_r. apply Nat.Div0.div_lt_upper_bound. nia.
Qed.

(** C3. For a non-empty raw series the [k]-th reduced price is the price
    of the raw point at index [k * step], and there is a [k]-th reduced
    price exactly when the raw series has that index (so the kept
    points are those at the multiples of [step]); the same holds of the
    labels; the first raw point is always kept; every reduced price is
    the price of a raw point. *)
Theorem reduced_is_decimation (data : list (point num)) (r : TimeRange) :
  data <> [] ->
  let s := step r (List.length data) in
  let out := getReducedData data r in
  (forall k, nth_error (prices out) k = option_map price (nth_error data (k * s))) /\
  (forall k, nth_error (labels out) k
             = option_map (fun d => formatTime r (time d)) (nth_error data (k * s))) /\
  nth_error (prices out) 0 = option_map price (nth_error data 0) /\
  (forall p, In p (prices out) -> exists d, In d data /\ price d = p).
Proof.
  intros Hne. cbv zeta.
  destruct (reduced_prices_labels data r) as [Hp Hl].
  pose proof (step_ge_1 r (List.length data)) as Hs.
  assert (Hk : forall k,
    nth_error (filter_index (fun _ index => index mod step r (List.length data) =? 0) data) k
    = nth_error data (k * step r (List.length data))).
  { intros k. unfold filter_index.
    now rewrite (filter_index_from_nth _ _ 0 0 k (next_kept_start _ Hs)). }
  rewrite Hp, Hl. repeat split.
  - intros k. now rewrite nth_error_map, Hk.
  - intros k. now rewrite nth_error_map, Hk.
  - now rewrite nth_error_map, Hk.
  - intros p Hin. apply in_map_iff in Hin. destruct Hin as [d [Hd Hin]].
    exists d. split; [|exact Hd].
    apply In_nth_error in Hin. destruct Hin as [k Hin].
    rewrite Hk in Hin. now apply nth_error_In in Hin.
Qed.

End ReducerTheorems.

(** The specification's scenario: 100 points over [7d] give [step = 14]
    and the 8 points at indices 0, 14, ..., 98. *)
Example reduced_100_points_7d :
  PriceChart.step R7d 100 = 14 /\
  PriceChart.prices (PriceChart.getReducedData (Samples.hourly 100) R7d)
  = map inject_Z [100; 114; 128; 142; 156; 170; 184; 198]%Z /\
  PriceChart.labels (PriceChart.getReducedData (Samples.hourly 100) R7d)
  = ["Mon"; "Mon"; "Tue"; "Tue"; "Wed"; "Wed"; "Thu"; "Fri"].
Proof. vm_compute. repeat split. Qed.

(** C2 as stated fails: 100 raw points over [7d] are reduced to 8 points,
    more than the target 7. *)
Lemma reduced_length_exceeds_target :
  ~ (List.length (PriceChart.prices (PriceChart.getReducedData (Samples.hourly 100) R7d))
     <= PriceChart.target R7d).
Proof. vm_compute. lia. Qed.

Lemma reduced_length_witness :
  List.length (PriceChart.prices (PriceChart.getReducedData (Samples.hourly 100) R7d))
  = PriceChart.ceil_div 100 14.
Proof.
  exact (proj1 (proj2 (proj2 (reduced_length (Samples.hourly 100) R7d)))).
Defined.

Lemma reduced_length_bound_witness :
  List.length (PriceChart.prices (PriceChart.getReducedData (Samples.hourly 100) R7d))
  <= 2 * PriceChart.target R7d - 1.
Proof.
  exact (proj1 (reduced_length_bound (Samples.hourly 100) R7d)).
Defined.

Lemma reduced_is_decimation_witness :
  let data := Samples.hourly 100 in
  data <> [] /\
  nth_error (PriceChart.prices (PriceChart.getReducedData data R7d)) 3
  = option_map PriceChart.price (nth_error data (3 * PriceChart.step R7d (List.length data))).
Proof.
  split; [discriminate|].
  apply (reduced_is_decimation (Samples.hourly 100) R7d). discriminate.
Defined.

(** ** Strings *)

Lemma prefix_iff (t s : string) :
  String.prefix t s = true <-> exists after : string, s = (t ++ after)%string.
Proof.
  revert s. induction t as [|a t IH]; intros [|b s]; cbn [String.prefix String.append].
  - split; [intros _; now exists EmptyString | reflexivity].
  - split; [intros _; now exists (String b s) | reflexivity].
  - split; [discriminate | intros [after Heq]; discriminate].
  - destruct (ascii_dec a b) as [->|Hab].
    + rewrite IH. split; intros [after Heq]; exists after.
      * now rewrite Heq.
      * now injection Heq.
    + split; [discriminate|]. intros [after Heq]. injection Heq as Hba _.
      now subst.
Qed.

Lemma String_includes_iff (s t : string) :
  String_includes s t = true <-> occurs_in t s.
Proof.
  unfold occurs_in. induction s as [|c s IH]; cbn [String_includes].
  - destruct (String.prefix t EmptyString) eqn:Hp.
    + apply prefix_iff in Hp. destruct Hp as [after Hp].
      split; [intros _; now exists EmptyString, after | reflexivity].
    + split; [discriminate|]. intros [[|b before] [after Heq]]; [|discriminate].
      assert (String.prefix t EmptyString = true) by (apply prefix_iff; now exists after).
      congruence.
  - destruct (String.prefix t (String c s)) eqn:Hp.
    + apply prefix_iff in Hp. destruct Hp as [after Hp].
      split; [intros _; now exists EmptyString, after | reflexivity].
    + rewrite IH. split.
      * intros [before [after Heq]]. exists (String c before), after.
        now rewrite Heq.
      * intros [[|b before] [after Heq]].
        -- assert (String.prefix t (String c s) = true)
             by (apply prefix_iff; now exists after).
           congruence.
        -- injection Heq as _ Heq. now exists before, after.
Qed.

(** ** The search filter *)

Section SearchFacts.
Context `{Host}.
Import CryptoTracker.

Lemma matchesSearch_ofCrypto (term : string) (c : Crypto) :
  matchesSearch term (ofCrypto c) = Ok (matches term c).
Proof.
  unfold matchesSearch, matches.
  change (getField (ofCrypto c) "name") with (Ok (VStr (name c))).
  change (getField (ofCrypto c) "symbol") with (Ok (VStr (symbol c))).
  cbn [bind toLowerCase_of].
  now destruct (String_includes (toLowerCase (name c)) (toLowerCase term)).
Qed.

Lemma filterM_map {A B : Type} (f : B -> result bool) (g : A -> B) (p : A -> bool)
      (l : list A) :
  (forall x, f (g x) = Ok (p x)) ->
  filterM f (map g l) = Ok (map g (filter p l)).
Proof.
  intros Hf. induction l as [|x l IH]; [reflexivity|].
  cbn [map filterM filter]. rewrite Hf, IH. cbn [bind].
  now destruct (p x).
Qed.

Lemma truthy_string_iff (s : string) : truthy_string s = true <-> s <> EmptyString.
Proof. destruct s; cbn; split; congruence. Qed.

Lemma map_VNum_inj (l1 l2 : list Q) : map VNum l1 = map VNum l2 -> l1 = l2.
Proof.
  revert l2. induction l1 as [|x l1 IH]; intros [|y l2] Heq; try discriminate.
  - reflexivity.
  - cbn [map] in Heq. injection Heq as -> Heq. f_equal. now apply IH.
Qed.

(** Distinct records have distinct run-time objects. *)
Lemma ofCrypto_inj (c1 c2 : Crypto) : ofCrypto c1 = ofCrypto c2 -> c1 = c2.
Proof.
  destruct c1 as [i1 s1 n1 g1 p1 m1 r1 d1 w1 k1 f1].
  destruct c2 as [i2 s2 n2 g2 p2 m2 r2 d2 w2 k2 f2].
  unfold ofCrypto. cbn [id symbol name image current_price market_cap market_cap_rank
    price_change_percentage_24h price_change_percentage_7d_in_currency
    sparkline_in_7d favorite].
  destruct w1, w2, k1, k2, f1, f2; cbn [option_map optional app];
    intros Heq; try discriminate Heq; injection Heq; intros; subst;
    repeat match goal with
           | Hm : map VNum _ = map VNum _ |- _ => apply map_VNum_inj in Hm; subst
           end; reflexivity.
Qed.

Lemma In_ofCrypto (c : Crypto) (l : list Crypto) :
  In (ofCrypto c) (map ofCrypto l) <-> In c l.
Proof.
  rewrite in_map_iff. split.
  - intros [c' [Heq Hin]]. apply ofCrypto_inj in Heq. now subst.
  - intros Hin. now exists c.
Qed.

(** C4. On a list of assets, a non-empty search term leaves in
    [filteredCryptos] exactly the assets of the list (in their order) for
    which the lowercased term is a substring of the lowercased name or of
    the lowercased symbol; an empty term leaves the whole list. *)
Theorem search_filter (cs : list Crypto) (s : State) :
  cryptos s = map ofCrypto cs ->
  let term := searchTerm s in
  let kept := if truthy_string term then filter (matches term) cs else cs in
  searchEffect s = Ok (setFilteredCryptos (map ofCrypto kept) s) /\
  (term <> EmptyString ->
   forall c, In (ofCrypto c) (map ofCrypto kept) <->
             In (ofCrypto c) (cryptos s) /\
             (occurs_in (toLowerCase term) (toLowerCase (name c)) \/
              occurs_in (toLowerCase term) (toLowerCase (symbol c)))) /\
  (term = EmptyString -> kept = cs /\ map ofCrypto kept = cryptos s).
Proof.
  intros Hcs. cbv zeta. unfold searchEffect. rewrite Hcs.
  destruct (truthy_string (searchTerm s)) eqn:Ht.
  - rewrite (filterM_map _ ofCrypto (matches (searchTerm s)))
      by apply matchesSearch_ofCrypto.
    cbn [bind]. split; [reflexivity|]. split.
    + intros _ c. rewrite !In_ofCrypto, filter_In. unfold matches.
      now rewrite orb_true_iff, !String_includes_iff.
    + intros He. rewrite He in Ht. discriminate.
  - split; [reflexivity|]. split.
    + intros Hne. apply truthy_string_iff in Hne. congruence.
    + intros _. now split.
Qed.

End SearchFacts.

(** ** The favorites list *)

Section FavoritesFacts.
Import CryptoTracker.

Lemma isFavorite_In (favs : list string) (x : string) :
  isFavorite favs x = true <-> In x favs.
Proof.
  unfold isFavorite, Array_includes. rewrite existsb_exists. split.
  - intros [y [Hin Heq]]. apply String.eqb_eq in Heq. now subst.
  - intros Hin. exists x. split; [exact Hin | apply String.eqb_refl].
Qed.

Lemma differs_iff (x id : string) : negb (String.eqb x id) = true <-> x <> id.
Proof. rewrite negb_true_iff. apply String.eqb_neq. Qed.

Lemma toggle_present (id : string) (prev : list string) :
  In id prev -> toggle id prev = filter (fun item => negb (String.eqb item id)) prev.
Proof.
  intros Hin. unfold toggle. apply isFavorite_In in Hin. unfold isFavorite in Hin.
  now rewrite Hin.
Qed.

Lemma toggle_absent (id : string) (prev : list string) :
  ~ In id prev -> toggle id prev = prev ++ [id].
Proof.
  intros Hin. unfold toggle.
  destruct (Array_includes prev (VStr id)) eqn:Hi; [|reflexivity].
  apply isFavorite_In in Hi. contradiction.
Qed.

Lemma toggle_In (id x : string) (prev : list string) :
  In x (toggle id prev) <-> (In x prev /\ x <> id) \/ (x = id /\ ~ In id prev).
Proof.
  destruct (in_dec string_dec id prev) as [Hin|Hin].
  - rewrite (toggle_present _ _ Hin), filter_In, differs_iff. tauto.
  - rewrite (toggle_absent _ _ Hin), in_app_iff. cbn [In].
    destruct (string_dec x id) as [->|Hne]; [tauto|].
    split; [intros [Hx|[Hx|[]]]; [tauto | congruence] | tauto].
Qed.

Lemma bool_eq_iff (a b : bool) : (a = true <-> b = true) -> a = b.
Proof. destruct a, b; intuition congruence. Qed.

(** C5. Toggling the same id twice gives a favorites list with the
    members of the original one, and one toggle negates the membership
    of the id. *)
Theorem toggle_twice (id : string) (s : State) :
  let once := toggleFavorite id s in
  let twice := toggleFavorite id once in
  (forall x, In x (favorites twice) <-> In x (favorites s)) /\
  (forall x, isFavorite (favorites twice) x = isFavorite (favorites s) x) /\
  isFavorite (favorites once) id = negb (isFavorite (favorites s) id).
Proof.
  cbv zeta. cbn [toggleFavorite setFavorites favorites].
  set (favs := favorites s).
  assert (Htwice : forall x, In x (toggle id (toggle id favs)) <-> In x favs).
  { intros x. rewrite !toggle_In.
    destruct (string_dec x id) as [->|Hne];
      destruct (in_dec string_dec id favs); tauto. }
  split; [exact Htwice|]. split.
  - intros x. apply bool_eq_iff. rewrite !isFavorite_In. apply Htwice.
  - apply bool_eq_iff. rewrite negb_true_iff, <- not_true_iff_false.
    rewrite !isFavorite_In, toggle_In. tauto.
Qed.

Lemma filter_all {A : Type} (p : A -> bool) (l : list A) :
  (forall x, In x l -> p x = true) -> filter p l = l.
Proof.
  induction l as [|x l IH]; intros Hp; [reflexivity|].
  cbn [filter]. rewrite (Hp x (or_introl eq_refl)), IH; [reflexivity|].
  intros y Hy. apply Hp. now right.
Qed.

(** Toggling twice an id that was absent restores the very list. *)
Lemma toggle_twice_absent (id : string) (favs : list string) :
  ~ In id favs -> toggle id (toggle id favs) = favs.
Proof.
  intros Hin. rewrite (toggle_absent _ _ Hin).
  rewrite toggle_present by (apply in_app_iff; right; now left).
  rewrite filter_app. cbn [filter]. rewrite String.eqb_refl. cbn [negb].
  rewrite app_nil_r. apply filter_all.
  intros x Hx. apply differs_iff. congruence.
Qed.

(** C10. On a duplicate-free favorites list a toggle gives a
    duplicate-free list; a present id is filtered out, with no
    occurrence left, and an absent id is appended at the end, where it
    is the only occurrence. *)
Theorem toggle_NoDup (id : string) (favs : list string) :
  NoDup favs ->
  NoDup (toggle id favs) /\
  (In id favs ->
   toggle id favs = filter (fun item => negb (String.eqb item id)) favs /\
   count_occ string_dec (toggle id favs) id = 0) /\
  (~ In id favs ->
   toggle id favs = favs ++ [id] /\
   count_occ string_dec (toggle id favs) id = 1).
Proof.
  intros Hnd. split; [|split].
  - destruct (in_dec string_dec id favs) as [Hin|Hin].
    + rewrite (toggle_present _ _ Hin). now apply NoDup_filter.
    + rewrite (toggle_absent _ _ Hin). apply NoDup_app; repeat split.
      * exact Hnd.
      * apply NoDup_cons; [intros []|constructor].
      * intros x Hx [<-|[]]. contradiction.
  - intros Hin. split; [now apply toggle_present|].
    apply count_occ_not_In. rewrite toggle_In. tauto.
  - intros Hin. split; [now apply toggle_absent|].
    rewrite (toggle_absent _ _ Hin), count_occ_app.
    apply (count_occ_not_In string_dec) in Hin. rewrite Hin. cbn.
    destruct (string_dec id id); congruence.
Qed.

End FavoritesFacts.

(** ** The listing refresh *)

Section ListingFacts.
Import CryptoTracker.

Lemma withFavorite_defined (favs : list string) (c : jsval) :
  nullish c = false -> exists v, withFavorite favs c = Ok v.
Proof.
  intros Hc. unfold withFavorite.
  destruct c; try discriminate; cbn [getField bind]; eauto.
Qed.

Lemma withFavorite_nullish (favs : list string) (c : jsval) :
  nullish c = true -> exists e, withFavorite favs c = Throw e.
Proof.
  intros Hc. unfold withFavorite.
  destruct c; try discriminate; cbn [getField bind]; eauto.
Qed.

Lemma mapM_withFavorite_defined (favs : list string) (es : list jsval) :
  existsb nullish es = false ->
  exists cs, mapM (withFavorite favs) es = Ok cs /\ List.length cs = List.length es.
Proof.
  induction es as [|c es IH]; cbn [existsb mapM]; intros Hn.
  - now exists [].
  - apply orb_false_iff in Hn. destruct Hn as [Hc Hes].
    destruct (withFavorite_defined favs c Hc) as [v ->].
    destruct (IH Hes) as [cs [-> Hlen]]. cbn [bind].
    exists (v :: cs). cbn [List.length]. now rewrite Hlen.
Qed.

Lemma mapM_withFavorite_nullish (favs : list string) (es : list jsval) :
  existsb nullish es = true -> exists e, mapM (withFavorite favs) es = Throw e.
Proof.
  induction es as [|c es IH]; cbn [existsb mapM]; intros Hn; [discriminate|].
  destruct (nullish c) eqn:Hc.
  - destruct (withFavorite_nullish favs c Hc) as [e ->]. now exists e.
  - destruct (withFavorite_defined favs c Hc) as [v ->]. cbn [bind].
    destruct (IH Hn) as [e ->]. now exists e.
Qed.

Lemma fetchCryptos_thrown (favs : list string) (fetched : result Response)
      (s : State) (e : thrown) :
  listing favs fetched = Throw e ->
  fetchCryptos favs fetched s
  = setLoading false (setError (Some (errorMessage e)) (setError None (setLoading true s))).
Proof. intros He. unfold fetchCryptos. now rewrite He. Qed.

Lemma fetchCryptos_installed (favs : list string) (fetched : result Response)
      (s : State) (cs : list jsval) :
  listing favs fetched = Ok cs ->
  fetchCryptos favs fetched s
  = setLoading false (setFilteredCryptos cs (setCryptos cs (setError None (setLoading true s)))).
Proof. intros He. unfold fetchCryptos. now rewrite He. Qed.

(** C6, as amended.  When the [try] block of the listing refresh throws,
    the snapshot and its filtered view are those held before and the
    error message is set.  It throws when the request is rejected, when
    the status is not a success, when the body is not JSON, when the
    parsed body is not an array, and when the parsed array has a [null]
    element.  A parsed array without such an element is installed as
    the new snapshot, whatever its elements are, and no error is set. *)
Theorem refresh_failure (favs : list string) (fetched : result Response) (s : State) :
  let s' := fetchCryptos favs fetched s in
  (forall e, listing favs fetched = Throw e ->
     cryptos s' = cryptos s /\ filteredCryptos s' = filteredCryptos s /\
     error s' = Some (errorMessage e) /\ loading s' = false) /\
  (forall e, fetched = Throw e -> listing favs fetched = Throw e) /\
  (forall r, fetched = Ok r -> ok r = false ->
     listing favs fetched
     = Throw (ErrorObj "Failed to fetch data. API rate limit may have been reached.")) /\
  (forall r e, fetched = Ok r -> ok r = true -> json r = Throw e ->
     listing favs fetched = Throw e) /\
  (forall r v, fetched = Ok r -> ok r = true -> json r = Ok v ->
     (forall es, v <> VArr es) -> exists e, listing favs fetched = Throw e) /\
  (forall r es, fetched = Ok r -> ok r = true -> json r = Ok (VArr es) ->
     existsb nullish es = true -> exists e, listing favs fetched = Throw e) /\
  (forall r es, fetched = Ok r -> ok r = true -> json r = Ok (VArr es) ->
     existsb nullish es = false ->
     exists cs, listing favs fetched = Ok cs /\ List.length cs = List.length es /\
                cryptos s' = cs /\ filteredCryptos s' = cs /\ error s' = None).
Proof.
  cbv zeta. split; [|split; [|split; [|split; [|split; [|split]]]]].
  - intros e He. now rewrite (fetchCryptos_thrown _ _ _ _ He).
  - intros e ->. reflexivity.
  - intros r -> Hok. unfold listing. cbn [bind]. now rewrite Hok.
  - intros r e -> Hok Hj. unfold listing. cbn [bind]. now rewrite Hok, Hj.
  - intros r v -> Hok Hj Hv. unfold listing. cbn [bind]. rewrite Hok, Hj. cbn [negb bind].
    destruct v; cbn [map_of]; eauto. now destruct (Hv elems).
  - intros r es -> Hok Hj Hn. unfold listing. cbn [bind]. rewrite Hok, Hj.
    cbn [negb bind map_of]. now apply mapM_withFavorite_nullish.
  - intros r es -> Hok Hj Hn.
    destruct (mapM_withFavorite_defined favs es Hn) as [cs [Hcs Hlen]].
    assert (Hl : listing favs (Ok r) = Ok cs).
    { unfold listing. cbn [bind]. rewrite Hok, Hj. cbn [negb bind map_of]. exact Hcs. }
    exists cs. now rewrite (fetchCryptos_installed _ _ _ _ Hl).
Qed.

End ListingFacts.

(** C6 as stated fails: a successful response whose body is an array of
    something else than listing records replaces the snapshot, and no
    error is set. *)
Lemma malformed_listing_installed :
  let s' := CryptoTracker.fetchCryptos ["ethereum"] Samples.not_a_listing Samples.snapshot in
  CryptoTracker.cryptos s'
  = [VObj [("error", VStr "unexpected payload"); ("favorite", VBool false)]] /\
  CryptoTracker.cryptos s' <> CryptoTracker.cryptos Samples.snapshot /\
  CryptoTracker.error s' = None.
Proof. vm_compute. repeat split. discriminate. Qed.

Lemma refresh_failure_witness :
  let s' := CryptoTracker.fetchCryptos ["ethereum"] Samples.too_many_requests Samples.snapshot in
  CryptoTracker.cryptos s' = CryptoTracker.cryptos Samples.snapshot /\
  CryptoTracker.error s'
  = Some "Failed to fetch data. API rate limit may have been reached.".
Proof.
  destruct (refresh_failure ["ethereum"] Samples.too_many_requests Samples.snapshot)
    as [Hthrown _].
  destruct (Hthrown (ErrorObj "Failed to fetch data. API rate limit may have been reached.")
                    eq_refl) as [Hc [_ [He _]]].
  split; [exact Hc | exact He].
Defined.

(** ** The detail view *)

Section DetailFacts.
Import CryptoDetail.

Lemma fetchHistoricalData_thrown (range : TimeRange) (fetched : result Response)
      (s : State) (e : thrown) :
  history fetched = Throw e ->
  fetchHistoricalData range fetched s
  = console_error "Error fetching historical data:" e s.
Proof. intros He. unfold fetchHistoricalData. now rewrite He. Qed.

Lemma errorTruthy_message (message : string) :
  errorTruthy (Some message) = true <-> message <> EmptyString.
Proof. apply truthy_string_iff. Qed.

Lemma listing_not_array (favs : list string) (r : Response) (v : jsval) :
  ok r = true -> json r = Ok v -> (forall es, v <> VArr es) ->
  exists e, CryptoTracker.listing favs (Ok r) = Throw e.
Proof.
  intros Hok Hj Hv. unfold CryptoTracker.listing. cbn [bind]. rewrite Hok, Hj.
  cbn [negb bind]. destruct v; cbn [map_of]; eauto. now destruct (Hv elems).
Qed.

Lemma listing_null_element (favs : list string) (r : Response) (es : list jsval) :
  ok r = true -> json r = Ok (VArr es) -> existsb nullish es = true ->
  exists e, CryptoTracker.listing favs (Ok r) = Throw e.
Proof.
  intros Hok Hj Hn. unfold CryptoTracker.listing. cbn [bind]. rewrite Hok, Hj.
  cbn [negb bind map_of]. now apply mapM_withFavorite_nullish.
Qed.

Lemma listing_any_array (favs : list string) (r : Response) (es : list jsval) :
  ok r = true -> json r = Ok (VArr es) -> existsb nullish es = false ->
  exists cs, CryptoTracker.listing favs (Ok r) = Ok cs.
Proof.
  intros Hok Hj Hn.
  destruct (mapM_withFavorite_defined favs es Hn) as [cs [Hcs _]].
  exists cs. unfold CryptoTracker.listing. cbn [bind]. rewrite Hok, Hj.
  cbn [negb bind map_of]. exact Hcs.
Qed.

Lemma fetchCryptoDetail_thrown (fetched fetchedHistory : result Response) (s : State)
      (e : thrown) :
  detail fetched = Throw e ->
  fetchCryptoDetail fetched fetchedHistory s
  = setLoading false (setError (Some (errorMessage e)) (setError None (setLoading true s))).
Proof. intros He. unfold fetchCryptoDetail. now rewrite He. Qed.

Lemma fetchCryptoDetail_delivered (fetched fetchedHistory : result Response) (s : State)
      (v : jsval) :
  detail fetched = Ok v ->
  let s' := fetchCryptoDetail fetched fetchedHistory s in
  error s' = None /\ detailData s' = v /\ loading s' = false.
Proof.
  intros Hd. cbv zeta. unfold fetchCryptoDetail, fetchHistoricalData. rewrite Hd.
  destruct (history fetchedHistory); repeat split.
Qed.

(** C7, as amended.  When the [try] block of the listing refresh or of
    the detail fetch throws, the error state of that component becomes the
    message of what was thrown, and that state is truthy, as the tests
    [error && ...] of the tracker and [if (error)] of the detail view ask
    before they show it, exactly when the message is not empty.  The
    block throws when the request is rejected, when the status is not a
    success (with a fixed message, which is not empty), when the body is
    not JSON and, for the listing, when the parsed body is not an array or
    has a [null] element.  A body that parses is otherwise no error: the
    listing installs every array without [null] elements and the detail
    fetch installs every parsed value, both with an empty error state.
    The historical-series fetch never changes the error state: whatever
    its [try] block throws, a rejected request, a status that is not a
    success and a body that is not JSON included, is caught inside
    [fetchHistoricalData] and printed on the console, and the chart
    data, the selected range and the detail payload stay as they were,
    also when the fetch runs as part of [fetchCryptoDetail], where the
    error state is then empty. *)
Theorem fetch_errors (favs : list string) (fetched : result Response)
        (s : CryptoTracker.State) (fetchedDetail fetchedHistory : result Response)
        (sd : State) (range : TimeRange) :
  let s' := CryptoTracker.fetchCryptos favs fetched s in
  let sd' := fetchCryptoDetail fetchedDetail fetchedHistory sd in
  let sh := fetchHistoricalData range fetchedHistory sd in
  ((forall e, CryptoTracker.listing favs fetched = Throw e ->
      CryptoTracker.error s' = Some (errorMessage e) /\
      (errorTruthy (CryptoTracker.error s') = true <-> errorMessage e <> EmptyString)) /\
   (forall e, fetched = Throw e -> CryptoTracker.listing favs fetched = Throw e) /\
   (forall r, fetched = Ok r -> ok r = false ->
      CryptoTracker.error s'
      = Some "Failed to fetch data. API rate limit may have been reached." /\
      errorTruthy (CryptoTracker.error s') = true) /\
   (forall r e, fetched = Ok r -> ok r = true -> json r = Throw e ->
      CryptoTracker.listing favs fetched = Throw e) /\
   (forall r v, fetched = Ok r -> ok r = true -> json r = Ok v ->
      (forall es, v <> VArr es) -> exists e, CryptoTracker.listing favs fetched = Throw e) /\
   (forall r es, fetched = Ok r -> ok r = true -> json r = Ok (VArr es) ->
      existsb nullish es = true -> exists e, CryptoTracker.listing favs fetched = Throw e) /\
   (forall r es, fetched = Ok r -> ok r = true -> json r = Ok (VArr es) ->
      existsb nullish es = false ->
      CryptoTracker.listing favs fetched = Ok (CryptoTracker.cryptos s') /\
      CryptoTracker.error s' = None /\ errorTruthy (CryptoTracker.error s') = false)) /\
  ((forall e, detail fetchedDetail = Throw e ->
      error sd' = Some (errorMessage e) /\
      (errorTruthy (error sd') = true <-> errorMessage e <> EmptyString)) /\
   (forall e, fetchedDetail = Throw e -> detail fetchedDetail = Throw e) /\
   (forall r, fetchedDetail = Ok r -> ok r = false ->
      error sd'
      = Some "Failed to fetch detailed data. API rate limit may have been reached." /\
      errorTruthy (error sd') = true) /\
   (forall r e, fetchedDetail = Ok r -> ok r = true -> json r = Throw e ->
      detail fetchedDetail = Throw e) /\
   (forall r v, fetchedDetail = Ok r -> ok r = true -> json r = Ok v ->
      error sd' = None /\ errorTruthy (error sd') = false /\ detailData sd' = v)) /\
  (error sh = error sd /\
   (forall e, fetchedHistory = Throw e -> history fetchedHistory = Throw e) /\
   (forall r, fetchedHistory = Ok r -> ok r = false ->
      history fetchedHistory = Throw (ErrorObj "Failed to fetch chart data")) /\
   (forall r e, fetchedHistory = Ok r -> ok r = true -> json r = Throw e ->
      history fetchedHistory = Throw e) /\
   (forall e, history fetchedHistory = Throw e ->
      error sh = error sd /\ chartData sh = chartData sd /\
      timeRange sh = timeRange sd /\ detailData sh = detailData sd /\
      console sh = console sd ++ [("Error fetching historical data:", e)]) /\
   (forall v e, detail fetchedDetail = Ok v -> history fetchedHistory = Throw e ->
      error sd' = None /\ errorTruthy (error sd') = false /\
      detailData sd' = v /\ chartData sd' = chartData sd /\
      timeRange sd' = timeRange sd /\
      console sd' = console sd ++ [("Error fetching historical data:", e)])).
Proof.
  cbv zeta. split; [|split].
  - split; [|split; [|split; [|split; [|split; [|split]]]]].
    + intros e He. rewrite (fetchCryptos_thrown _ _ _ _ He).
      split; [reflexivity | apply errorTruthy_message].
    + intros e ->. reflexivity.
    + intros r -> Hok.
      assert (He : CryptoTracker.listing favs (Ok r)
                   = Throw (ErrorObj "Failed to fetch data. API rate limit may have been reached.")).
      { unfold CryptoTracker.listing. cbn [bind]. now rewrite Hok. }
      rewrite (fetchCryptos_thrown _ _ _ _ He). split; reflexivity.
    + intros r e -> Hok Hj. unfold CryptoTracker.listing. cbn [bind]. now rewrite Hok, Hj.
    + intros r v -> Hok Hj Hv. now apply (listing_not_array favs r v).
    + intros r es -> Hok Hj Hn. now apply (listing_null_element favs r es).
    + intros r es -> Hok Hj Hn.
      destruct (listing_any_array favs r es Hok Hj Hn) as [cs Hcs].
      rewrite (fetchCryptos_installed _ _ _ _ Hcs).
      split; [exact Hcs | split; reflexivity].
  - split; [|split; [|split; [|split]]].
    + intros e He. rewrite (fetchCryptoDetail_thrown _ _ _ _ He).
      split; [reflexivity | apply errorTruthy_message].
    + intros e ->. reflexivity.
    + intros r -> Hok.
      assert (He : detail (Ok r)
                   = Throw (ErrorObj "Failed to fetch detailed data. API rate limit may have been reached.")).
      { unfold detail. cbn [bind]. now rewrite Hok. }
      rewrite (fetchCryptoDetail_thrown _ _ _ _ He). split; reflexivity.
    + intros r e -> Hok Hj. unfold detail. cbn [bind]. now rewrite Hok, Hj.
    + intros r v -> Hok Hj.
      assert (Hd : detail (Ok r) = Ok v).
      { unfold detail. cbn [bind]. now rewrite Hok, Hj. }
      destruct (fetchCryptoDetail_delivered (Ok r) fetchedHistory sd v Hd) as [He [Hv _]].
      rewrite He. now split.
  - split; [|split; [|split; [|split; [|split]]]].
    + unfold fetchHistoricalData. now destruct (history fetchedHistory).
    + intros e ->. reflexivity.
    + intros r -> Hok. unfold history. cbn [bind]. now rewrite Hok.
    + intros r e -> Hok Hj. unfold history. cbn [bind]. now rewrite Hok, Hj.
    + intros e He. now rewrite (fetchHistoricalData_thrown _ _ _ _ He).
    + intros v e Hd He. unfold fetchCryptoDetail.
      rewrite Hd, (fetchHistoricalData_thrown _ _ _ _ He). repeat split.
Qed.

(** C9. The percentage shown for [90d] is the payload's
    [price_change_percentage_60d], not a [90d] field; every other range
    reads the field of its own name. *)
Theorem priceChangePercent_field (detailData : jsval) (md : list (string * jsval)) :
  getField detailData "market_data" = Ok (VObj md) ->
  priceChangePercent detailData R24h = Ok (own "price_change_percentage_24h" md) /\
  priceChangePercent detailData R7d = Ok (own "price_change_percentage_7d" md) /\
  priceChangePercent detailData R30d = Ok (own "price_change_percentage_30d" md) /\
  priceChangePercent detailData R90d = Ok (own "price_change_percentage_60d" md) /\
  priceChangePercent detailData R1y = Ok (own "price_change_percentage_1y" md) /\
  priceChangeKey R90d <> "price_change_percentage_90d".
Proof.
  intros Hmd. unfold priceChangePercent. rewrite Hmd. cbn [bind].
  repeat split. discriminate.
Qed.

End DetailFacts.

(** C7 as stated fails: a historical-series request answered with status
    429 leaves the error state empty. *)
Lemma failed_history_not_surfaced :
  CryptoDetail.history Samples.too_many_requests
  = Throw (ErrorObj "Failed to fetch chart data") /\
  CryptoDetail.error
    (CryptoDetail.fetchHistoricalData R30d Samples.too_many_requests Samples.showing)
  = None.
Proof. split; reflexivity. Qed.

Lemma fetch_errors_witness :
  let sd' := CryptoDetail.fetchHistoricalData R30d Samples.too_many_requests Samples.showing in
  (CryptoDetail.error sd' = CryptoDetail.error Samples.showing /\
   CryptoDetail.chartData sd' = CryptoDetail.chartData Samples.showing /\
   CryptoDetail.console sd'
   = [("Error fetching historical data:", ErrorObj "Failed to fetch chart data")]) /\
  errorTruthy
    (CryptoTracker.error
       (CryptoTracker.fetchCryptos [] Samples.too_many_requests Samples.snapshot))
  = true /\
  CryptoDetail.error
    (CryptoDetail.fetchCryptoDetail Samples.too_many_requests Samples.too_many_requests
       Samples.showing)
  = Some "Failed to fetch detailed data. API rate limit may have been reached.".
Proof.
  destruct (fetch_errors [] Samples.too_many_requests Samples.snapshot
              Samples.too_many_requests Samples.too_many_requests Samples.showing R30d)
    as [[_ [_ [Hstatus _]]] [[_ [_ [Hdetail _]]] [_ [_ [_ [_ [Hh _]]]]]]].
  destruct (Hh (ErrorObj "Failed to fetch chart data") eq_refl) as [He [Hc [_ [_ Hl]]]].
  split; [split; [exact He | split; [exact Hc | exact Hl]]|].
  split.
  - exact (proj2 (Hstatus _ eq_refl eq_refl)).
  - exact (proj1 (Hdetail _ eq_refl eq_refl)).
Defined.

Lemma priceChangePercent_field_witness :
  CryptoDetail.priceChangePercent Samples.detail_payload R90d = Ok (VNum 12.5%Q).
Proof.
  exact (proj1 (proj2 (proj2 (proj2
    (priceChangePercent_field Samples.detail_payload
       [("price_change_percentage_24h", VNum (-1.25)%Q);
        ("price_change_percentage_7d", VNum 3.5%Q);
        ("price_change_percentage_30d", VNum 8%Q);
        ("price_change_percentage_60d", VNum 12.5%Q);
        ("price_change_percentage_90d", VNum 99%Q);
        ("price_change_percentage_1y", VNum 140%Q)] eq_refl))))).
Defined.

(** ** Loading the favorites *)

Section LoadFacts.
Context `{Host}.
Import CryptoTracker.

(** C8, as amended.  Loading the favorites raises nothing when the
    persisted value is absent or empty, and then calls [setFavorites]
    not at all, so that the favorites stay the empty list of the initial
    state; when the persisted value parses, the parsed value becomes the
    favorites; when it is present and [JSON.parse] rejects it, that
    error is raised to the caller. *)
Theorem loadFavorites_cases (savedFavorites : option string) :
  favorites initialState = [] /\
  (savedFavorites = None \/ savedFavorites = Some EmptyString ->
   loadFavorites savedFavorites = Ok None) /\
  (forall text v, savedFavorites = Some text -> text <> EmptyString ->
     JSON_parse text = Ok v -> loadFavorites savedFavorites = Ok (Some v)) /\
  (forall text e, savedFavorites = Some text -> text <> EmptyString ->
     JSON_parse text = Throw e -> loadFavorites savedFavorites = Throw e).
Proof.
  split; [reflexivity|]. split; [|split].
  - intros [->| ->]; reflexivity.
  - intros text v -> Hne Hp. apply truthy_string_iff in Hne.
    unfold loadFavorites. now rewrite Hne, Hp.
  - intros text e -> Hne Hp. apply truthy_string_iff in Hne.
    unfold loadFavorites. now rewrite Hne, Hp.
Qed.

End LoadFacts.

(** C8 as stated fails: a persisted value that is not JSON makes the load
    raise the parser's error. *)
Lemma malformed_favorites_raise :
  JSON_parse "{oops" = Throw Json.syntaxError /\
  CryptoTracker.loadFavorites (Some "{oops") = Throw Json.syntaxError /\
  ~ (exists loaded, CryptoTracker.loadFavorites (Some "{oops") = Ok loaded).
Proof.
  split; [reflexivity|]. split; [reflexivity|].
  intros [loaded Hl]. vm_compute in Hl. discriminate.
Qed.

Lemma loadFavorites_cases_witness :
  CryptoTracker.loadFavorites (Some "[1, 2") = Throw Json.syntaxError /\
  CryptoTracker.loadFavorites (Some "[]") = Ok (Some (VArr [])).
Proof.
  destruct (loadFavorites_cases (Some "[1, 2")) as [_ [_ [_ Hthrow]]].
  destruct (loadFavorites_cases (Some "[]")) as [_ [_ [Hok _]]].
  split.
  - apply (Hthrow "[1, 2" Json.syntaxError eq_refl); [discriminate | reflexivity].
  - apply (Hok "[]" (VArr []) eq_refl); [discriminate | reflexivity].
Defined.

(** ** Witnesses on the sample snapshot *)

Lemma search_filter_witness :
  CryptoTracker.searchEffect (Samples.searching "ETH")
  = Ok (CryptoTracker.setFilteredCryptos
          (map CryptoTracker.ofCrypto [Samples.ethereum]) (Samples.searching "ETH")) /\
  (In (CryptoTracker.ofCrypto Samples.bitcoin) (map CryptoTracker.ofCrypto [Samples.ethereum]) <->
   In (CryptoTracker.ofCrypto Samples.bitcoin)
      (map CryptoTracker.ofCrypto [Samples.bitcoin; Samples.ethereum]) /\
   (occurs_in "eth" "bitcoin" \/ occurs_in "eth" "btc")).
Proof.
  destruct (search_filter [Samples.bitcoin; Samples.ethereum]
              (Samples.searching "ETH") eq_refl) as [Hout [Hiff _]].
  split; [exact Hout|].
  apply (Hiff ltac:(discriminate) Samples.bitcoin).
Defined.

Lemma toggle_NoDup_witness :
  NoDup (CryptoTracker.toggle "bitcoin" ["ethereum"; "bitcoin"; "solana"]) /\
  CryptoTracker.toggle "bitcoin" ["ethereum"; "bitcoin"; "solana"] = ["ethereum"; "solana"].
Proof.
  assert (Hnd : NoDup ["ethereum"; "bitcoin"; "solana"]).
  { repeat constructor; cbn; intuition discriminate. }
  destruct (toggle_NoDup "bitcoin" ["ethereum"; "bitcoin"; "solana"] Hnd) as [Hn [Hp _]].
  split; [exact Hn|].
  refine (proj1 (Hp _)). cbn. tauto.
Defined.

(* ================================================================== *)
(** * Further properties of the components *)

(** ** The series reducer *)

Section ReducerMore.
Context {num : Type} `{PriceChart.DateLocale num}.
Import PriceChart.

Lemma filter_index_from_step_1 {A : Type} (l : list A) (i : nat) :
  filter_index_from (fun _ index => index mod 1 =? 0) i l = l.
Proof.
  revert i. induction l as [|x l IH]; intros i; [reflexivity|].
  cbn [filter_index_from]. rewrite Nat.mod_1_r. cbn [Nat.eqb]. now rewrite IH.
Qed.

Lemma step_1_iff (r : TimeRange) (n : nat) : step r n = 1 <-> n < 2 * target r.
Proof.
  rewrite step_eq_target.
  assert (Ht : 2 <= target r) by (destruct r; cbn; lia).
  pose proof (Nat.div_mod_eq n (target r)) as Hdm.
  pose proof (Nat.mod_upper_bound n (target r)) as Hlt.
  split; intros Hs.
  - assert (n / target r <= 1) by lia. nia.
  - assert (n / target r < 2) by (apply Nat.Div0.div_lt_upper_bound; lia). lia.
Qed.

(** X1. A raw series is displayed in full exactly when it has fewer than
    twice the target number of points: then the prices and labels are
    those of all raw points, and otherwise some point is left out. *)
Theorem reduced_in_full (data : list (point num)) (r : TimeRange) :
  let n := List.length data in
  let out := getReducedData data r in
  (List.length (prices out) = n <-> n < 2 * target r) /\
  (n < 2 * target r ->
   prices out = map price data /\
   labels out = map (fun d => formatTime r (time d)) data).
Proof.
  cbv zeta.
  destruct (reduced_prices_labels data r) as [Hp Hl].
  assert (Hfull : List.length data < 2 * target r ->
                  filter_index (fun _ index => index mod step r (List.length data) =? 0) data
                  = data).
  { intros Hn. apply step_1_iff in Hn. rewrite Hn. apply filter_index_from_step_1. }
  split.
  - split.
    + rewrite Hp, length_map, kept_length. intros Hlen.
      destruct (Nat.lt_ge_cases (List.length data) (2 * target r)) as [Hn|Hn]; [exact Hn|].
      exfalso.
      assert (Ht : 2 <= target r) by (destruct r; cbn; lia).
      pose proof (step_ge_1 r (List.length data)) as Hs1.
      assert (Hs : 2 <= step r (List.length data)).
      { destruct (Nat.eq_dec (step r (List.length data)) 1) as [He|He]; [|lia].
        apply step_1_iff in He. lia. }
      destruct (ceil_div_bounds (List.length data) (step r (List.length data)) Hs1)
        as [_ Hup].
      rewrite Hlen in Hup. nia.
    + intros Hn. now rewrite Hp, (Hfull Hn), length_map.
  - intros Hn. now rewrite Hp, Hl, (Hfull Hn).
Qed.

(** X2. The reduced series has at least as many points as the smaller of
    the raw length and the target. *)
Theorem reduced_length_lower_bound (data : list (point num)) (r : TimeRange) :
  Nat.min (List.length data) (target r)
  <= List.length (prices (getReducedData data r)).
Proof.
  destruct (reduced_prices_labels data r) as [Hp _].
  rewrite Hp, length_map, kept_length, step_eq_target.
  set (n := List.length data). set (t := target r).
  assert (Ht : 2 <= t) by (subst t; destruct r; cbn; lia).
  pose proof (Nat.div_mod_eq n t) as Hdm.
  pose proof (Nat.mod_upper_bound n t) as Hlt.
  unfold ceil_div.
  destruct (Nat.eq_dec (n / t) 0) as [Hq|Hq].
  - rewrite Hq. cbn [Nat.max]. rewrite Nat.div_1_r. rewrite Hq in Hdm. lia.
  - replace (Nat.max 1 (n / t)) with (n / t) by lia.
    transitivity t; [apply Nat.le_min_r|].
    apply Nat.div_le_lower_bound; [exact Hq|]. nia.
Qed.

(** X3. For a non-empty raw series the last point on display is the raw
    point at index [(len - 1) * step], where [len] is the number of points
    on display; that index is among the last [step] indices of the raw
    series, so fewer than [step] trailing raw points are left out, and it
    is the last index exactly when [step] divides [n - 1]. *)
Theorem reduced_last_point (data : list (point num)) (r : TimeRange) :
  data <> [] ->
  let n := List.length data in
  let s := step r n in
  let out := getReducedData data r in
  let len := List.length (prices out) in
  1 <= len /\
  nth_error (prices out) (len - 1) = option_map price (nth_error data ((len - 1) * s)) /\
  n - s <= (len - 1) * s /\ (len - 1) * s <= n - 1 /\
  ((len - 1) * s = n - 1 <-> (n - 1) mod s = 0).
Proof.
  intros Hne. cbv zeta.
  destruct (reduced_prices_labels data r) as [Hp _].
  pose proof (step_ge_1 r (List.length data)) as Hs.
  rewrite Hp, length_map, kept_length.
  destruct (ceil_div_bounds (List.length data) (step r (List.length data)) Hs) as [Hlo Hup].
  assert (Hn : 1 <= List.length data) by (destruct data; [congruence | cbn; lia]).
  set (n := List.length data) in *. set (s := step r n) in *.
  set (len := ceil_div n s) in *.
  assert (Hlen : 1 <= len) by nia.
  split; [exact Hlen|]. split.
  - rewrite nth_error_map. unfold filter_index.
    now rewrite (filter_index_from_nth _ _ 0 0 (len - 1) (next_kept_start _ Hs)).
  - split; [nia|]. split; [nia|]. split.
    + intros He. rewrite <- He. apply Nat.Div0.mod_mul.
    + intros Hm. apply Nat.Div0.mod_divides in Hm. destruct Hm as [c Hc].
      assert (Hcl : c = len - 1) by nia. subst c. lia.
Qed.

End ReducerMore.

Lemma reduced_last_point_witness :
  let data := Samples.hourly 100 in
  data <> [] /\
  nth_error (PriceChart.prices (PriceChart.getReducedData data R7d)) 7
  = option_map PriceChart.price (nth_error data 98).
Proof.
  split; [discriminate|].
  exact (proj1 (proj2 (reduced_last_point (Samples.hourly 100) R7d ltac:(discriminate)))).
Defined.

Lemma reduced_in_full_witness :
  PriceChart.prices (PriceChart.getReducedData (Samples.hourly 13) R7d)
  = map PriceChart.price (Samples.hourly 13).
Proof.
  refine (proj1 (proj2 (reduced_in_full (Samples.hourly 13) R7d) _)).
  cbn. lia.
Defined.

Section ChartOptionsFacts.
Context `{PriceChart.DateLocale Q}.
Import PriceChart ChartOptions.

Lemma reduced_head (data : list (point Q)) (r : TimeRange) :
  firstBelowOne (prices (getReducedData data r)) = firstBelowOne (map price data).
Proof.
  destruct data as [|d data]; [reflexivity|].
  cbn [getReducedData prices filter_index filter_index_from].
  rewrite Nat.Div0.mod_0_l. reflexivity.
Qed.

(** X4. The fraction digits of the tooltip (6 or 2) and of the price axis
    (2 or 0) are decided by the first raw point alone: the larger number
    when its price is below 1, the smaller one otherwise and when there is
    no point. *)
Theorem fraction_digits_from_first_point (data : list (point Q)) (r : TimeRange) :
  let out := getReducedData data r in
  let below := match data with
               | d :: _ => negb (Qle_bool 1 (price d))
               | [] => false
               end in
  tooltipFractionDigits (prices out) = (if below then 6 else 2) /\
  axisFractionDigits (prices out) = (if below then 2 else 0).
Proof.
  cbv zeta. unfold tooltipFractionDigits, axisFractionDigits.
  rewrite reduced_head. now destruct data.
Qed.

End ChartOptionsFacts.

(** ** Tagging records with the favorites *)

Section TaggingFacts.
Import CryptoTracker TrackerEffects.

Lemma lookup_setProp_same (k : string) (v : jsval) (ps : list (string * jsval)) :
  lookup k (setProp k v ps) = Some v.
Proof.
  induction ps as [|[k' v'] ps IH]; cbn [setProp lookup].
  - now rewrite String.eqb_refl.
  - destruct (String.eqb k k') eqn:Hk; cbn [lookup].
    + now rewrite String.eqb_refl.
    + now rewrite Hk.
Qed.

Lemma lookup_setProp_other (k k' : string) (v : jsval) (ps : list (string * jsval)) :
  k' <> k -> lookup k' (setProp k v ps) = lookup k' ps.
Proof.
  intros Hne. apply String.eqb_neq in Hne.
  induction ps as [|[k0 v0] ps IH]; cbn [setProp lookup].
  - now rewrite Hne.
  - destruct (String.eqb k k0) eqn:Hk; cbn [lookup].
    + apply String.eqb_eq in Hk. subst k0. now rewrite Hne.
    + now rewrite IH.
Qed.

(** X5. Tagging an object copies every property it has and changes only
    [favorite], which becomes whether the favorites list includes the
    object's [id]; a [null] or [undefined] element makes the tagging
    throw. *)
Theorem withFavorite_object (favs : list string) (ps : list (string * jsval)) :
  exists ps',
    withFavorite favs (VObj ps) = Ok (VObj ps') /\
    own "favorite" ps' = VBool (Array_includes favs (own "id" ps)) /\
    (forall k, k <> "favorite" -> own k ps' = own k ps) /\
    (forall c, nullish c = true -> exists e, withFavorite favs c = Throw e).
Proof.
  exists (setProp "favorite" (VBool (Array_includes favs (own "id" ps))) ps).
  split; [reflexivity|]. split; [|split].
  - unfold own at 1. now rewrite lookup_setProp_same.
  - intros k Hk. unfold own. now rewrite lookup_setProp_other.
  - intros c Hc. now apply withFavorite_nullish.
Qed.

Lemma withFavorite_ofCrypto (favs : list string) (c : Crypto) :
  withFavorite favs (ofCrypto c) = Ok (ofCrypto (tagged favs c)).
Proof.
  destruct c as [i sy n g p m r d w k f].
  unfold withFavorite, ofCrypto, tagged, isFavorite.
  cbn [id symbol name image current_price market_cap market_cap_rank
       price_change_percentage_24h price_change_percentage_7d_in_currency
       sparkline_in_7d favorite].
  destruct w, k, f; reflexivity.
Qed.

Lemma mapM_map {A B C : Type} (f : B -> result C) (g : A -> B) (h : A -> C)
      (l : list A) :
  (forall x, f (g x) = Ok (h x)) -> mapM f (map g l) = Ok (map h l).
Proof.
  intros Hf. induction l as [|x l IH]; [reflexivity|].
  cbn [map mapM]. now rewrite Hf, IH.
Qed.

Lemma mapM_withFavorite_ofCrypto (favs : list string) (cs : list Crypto) :
  mapM (withFavorite favs) (map ofCrypto cs) = Ok (map ofCrypto (map (tagged favs) cs)).
Proof.
  rewrite map_map.
  apply (mapM_map _ ofCrypto (fun c => ofCrypto (tagged favs c))).
  apply withFavorite_ofCrypto.
Qed.

Lemma tagged_idempotent (favs : list string) (c : Crypto) :
  tagged favs (tagged favs c) = tagged favs c.
Proof. reflexivity. Qed.

Lemma listing_ofCrypto (favs : list string) (cs : list Crypto) :
  listing favs (Ok {| ok := true; json := Ok (VArr (map ofCrypto cs)) |})
  = Ok (map ofCrypto (map (tagged favs) cs)).
Proof.
  unfold listing. cbn [bind ok json negb map_of]. apply mapM_withFavorite_ofCrypto.
Qed.

(** X6. A successful listing response whose body is an array of
    well-shaped records installs these records, in their order, as the
    snapshot and as its filtered view, each with [favorite] set to whether
    the captured favorites include its id and with every other field
    unchanged; the error is cleared and the loading flag is off. *)
Theorem refresh_success (favs : list string) (cs : list Crypto) (s : State) :
  let s' := fetchCryptos favs (Ok {| ok := true; json := Ok (VArr (map ofCrypto cs)) |}) s in
  cryptos s' = map ofCrypto (map (tagged favs) cs) /\
  filteredCryptos s' = map ofCrypto (map (tagged favs) cs) /\
  error s' = None /\ loading s' = false /\
  map id (map (tagged favs) cs) = map id cs /\
  map name (map (tagged favs) cs) = map name cs /\
  map current_price (map (tagged favs) cs) = map current_price cs /\
  (forall c, In c (map (tagged favs) cs) -> favorite c = Some (isFavorite favs (id c))).
Proof.
  cbv zeta. rewrite (fetchCryptos_installed _ _ _ _ (listing_ofCrypto favs cs)).
  repeat (split; [first [reflexivity | now rewrite map_map]|]).
  intros c Hin. apply in_map_iff in Hin. destruct Hin as [c0 [<- _]]. reflexivity.
Qed.

(** X7. Whatever the response, [fetchCryptos] ends with the loading flag
    off and leaves the favorites, the search term and the selection as
    they were; the error is empty afterwards exactly when the listing was
    installed, and then the filtered view is the whole new snapshot. *)
Theorem fetchCryptos_frame (favs : list string) (fetched : result Response) (s : State) :
  let s' := fetchCryptos favs fetched s in
  loading s' = false /\
  favorites s' = favorites s /\ searchTerm s' = searchTerm s /\
  selectedCrypto s' = selectedCrypto s /\
  (error s' = None <-> exists cs, listing favs fetched = Ok cs) /\
  (error s' = None -> filteredCryptos s' = cryptos s').
Proof.
  cbv zeta. destruct (listing favs fetched) as [cs|e] eqn:Hl.
  - rewrite (fetchCryptos_installed _ _ _ _ Hl).
    repeat (split; [reflexivity|]). split; [|reflexivity].
    split; [intros _; now exists cs | reflexivity].
  - rewrite (fetchCryptos_thrown _ _ _ _ Hl).
    repeat (split; [reflexivity|]). split.
    + split; [discriminate | intros [cs Hcs]; discriminate].
    + discriminate.
Qed.

End TaggingFacts.

(** ** The favorites effect and the persisted list *)

Section FavoritesEffectFacts.
Context `{Host} `{Serializer}.
Import CryptoTracker TrackerEffects.

(** X8. On a snapshot of well-shaped records the favorites effect stores
    the serialized list under [cryptoFavorites], leaving every other key
    alone, and re-tags each record of the snapshot with its membership in
    the favorites, in place; the filtered view is not touched by this
    effect, and running the effect again changes nothing more. *)
Theorem favoritesEffect_retags (cs : list Crypto) (store : Storage) (s : State) :
  cryptos s = map ofCrypto cs ->
  let s' := setCryptos (map ofCrypto (map (tagged (favorites s)) cs)) s in
  let store' := fst (favoritesEffect store s) in
  snd (favoritesEffect store s) = Ok s' /\
  getItem store' "cryptoFavorites" = Some (JSON_stringify (favorites s)) /\
  (forall key, key <> "cryptoFavorites" -> getItem store' key = getItem store key) /\
  filteredCryptos s' = filteredCryptos s /\
  snd (favoritesEffect store' s') = Ok s' /\
  (forall key, getItem (fst (favoritesEffect store' s')) key = getItem store' key).
Proof.
  intros Hcs. cbv zeta. unfold favoritesEffect. cbn [fst snd].
  rewrite Hcs, mapM_withFavorite_ofCrypto. cbn [bind].
  split; [reflexivity|]. split; [reflexivity|].
  split; [|split; [reflexivity|split]].
  - intros key Hkey. unfold getItem, setItem.
    apply String.eqb_neq in Hkey. now rewrite Hkey.
  - cbn [cryptos favorites setCryptos]. rewrite mapM_withFavorite_ofCrypto. cbn [bind].
    now rewrite (map_map (tagged (favorites s)) (tagged (favorites s))).
  - intros key. unfold getItem, setItem. cbn [favorites setCryptos].
    now destruct (String.eqb key "cryptoFavorites").
Qed.

(** X9. What the favorites effect saves is what the mount effect loads:
    when the platform's parser reads back its serialization of the list,
    loading from the storage written by the effect hands [setFavorites]
    the array of the same strings in the same order. *)
Theorem saved_favorites_load (store : Storage) (s : State) :
  JSON_stringify (favorites s) <> EmptyString ->
  JSON_parse (JSON_stringify (favorites s)) = Ok (VArr (map VStr (favorites s))) ->
  loadSavedFavorites (fst (favoritesEffect store s))
  = Ok (Some (VArr (map VStr (favorites s)))).
Proof.
  intros Hne Hparse. unfold loadSavedFavorites, favoritesEffect. cbn [fst].
  unfold getItem, setItem. rewrite String.eqb_refl.
  unfold loadFavorites. apply truthy_string_iff in Hne. now rewrite Hne, Hparse.
Qed.

(** An empty storage loads no favorites. *)
Lemma empty_storage_loads_nothing : loadSavedFavorites emptyStorage = Ok None.
Proof. reflexivity. Qed.

End FavoritesEffectFacts.

(** ** The search effect on any snapshot *)

Section SearchMore.
Context `{Host}.
Import CryptoTracker TrackerEffects.

Lemma filterM_inv {A : Type} (f : A -> result bool) (l out : list A) :
  filterM f l = Ok out ->
  Forall (fun x => exists b, f x = Ok b) l /\ incl out l.
Proof.
  revert out. induction l as [|x l IH]; intros out; cbn [filterM].
  - intros Heq. injection Heq as <-. split; [constructor | apply incl_refl].
  - destruct (f x) as [b|e] eqn:Hf; cbn [bind]; [|discriminate].
    destruct (filterM f l) as [ys|e] eqn:Hl; cbn [bind]; [|discriminate].
    intros Heq. injection Heq as <-.
    destruct (IH ys eq_refl) as [Hall Hincl]. split.
    + constructor; [now exists b | exact Hall].
    + destruct b.
      * intros y [<-|Hy]; [now left | right; now apply Hincl].
      * intros y Hy. right. now apply Hincl.
Qed.

Lemma matchesSearch_needs_name (term : string) (c : jsval) (b : bool) :
  matchesSearch term c = Ok b -> exists n, getField c "name" = Ok (VStr n).
Proof.
  unfold matchesSearch.
  destruct (getField c "name") as [v|e]; cbn [bind]; [|discriminate].
  destruct v; cbn [toLowerCase_of bind]; try discriminate. eauto.
Qed.

(** X10. With an empty search term the search effect succeeds on every
    snapshot and shows all of it.  Whenever the effect succeeds it
    changes only the filtered view, which then holds elements of the
    snapshot only; and with a non-empty term it can succeed only if every
    element of the snapshot has a string [name]. *)
Theorem searchEffect_shape (s : State) :
  (searchTerm s = EmptyString -> searchEffect s = Ok (setFilteredCryptos (cryptos s) s)) /\
  (forall s', searchEffect s = Ok s' ->
     cryptos s' = cryptos s /\ favorites s' = favorites s /\ error s' = error s /\
     searchTerm s' = searchTerm s /\
     incl (filteredCryptos s') (cryptos s) /\
     (searchTerm s <> EmptyString ->
      Forall (fun c => exists n, getField c "name" = Ok (VStr n)) (cryptos s))).
Proof.
  unfold searchEffect. split.
  - intros ->. reflexivity.
  - intros s'. destruct (truthy_string (searchTerm s)) eqn:Ht.
    + destruct (filterM (matchesSearch (searchTerm s)) (cryptos s)) as [out|e] eqn:Hf;
        cbn [bind]; [|discriminate].
      intros Heq. injection Heq as <-.
      destruct (filterM_inv _ _ _ Hf) as [Hall Hincl].
      repeat (split; [first [reflexivity | exact Hincl]|]).
      intros _. eapply Forall_impl; [|exact Hall].
      intros c [b Hb]. now apply matchesSearch_needs_name in Hb.
    + intros Heq. injection Heq as <-.
      repeat (split; [first [reflexivity | apply incl_refl]|]).
      intros Hne. apply truthy_string_iff in Hne. congruence.
Qed.

Lemma string_app_assoc (a b c : string) : ((a ++ b) ++ c = a ++ (b ++ c))%string.
Proof. induction a as [|x a IH]; cbn [String.append]; [reflexivity | now rewrite IH]. Qed.

Lemma occurs_in_trans (a b c : string) : occurs_in a b -> occurs_in b c -> occurs_in a c.
Proof.
  intros [b1 [a1 ->]] [b2 [a2 ->]].
  exists (b2 ++ b1)%string, (a1 ++ a2)%string.
  now rewrite !string_app_assoc.
Qed.

Lemma matches_narrows (t1 t2 : string) (c : Crypto) :
  occurs_in (toLowerCase t1) (toLowerCase t2) ->
  matches t2 c = true -> matches t1 c = true.
Proof.
  intros Hocc. unfold matches. rewrite !orb_true_iff, !String_includes_iff.
  intros [Hm|Hm]; [left | right]; eapply occurs_in_trans; eassumption.
Qed.

(** X11. Lengthening the search term never adds rows: on a snapshot of
    well-shaped records, when the lowercased term of one search occurs in
    the lowercased non-empty term of another, both searches succeed and
    every row kept by the longer term is kept by the shorter one. *)
Theorem search_narrows (cs : list Crypto) (s1 s2 : State) :
  cryptos s1 = map ofCrypto cs -> cryptos s2 = map ofCrypto cs ->
  searchTerm s2 <> EmptyString ->
  occurs_in (toLowerCase (searchTerm s1)) (toLowerCase (searchTerm s2)) ->
  exists s1' s2',
    searchEffect s1 = Ok s1' /\ searchEffect s2 = Ok s2' /\
    incl (filteredCryptos s2') (filteredCryptos s1').
Proof.
  intros Hc1 Hc2 Hne Hocc. apply truthy_string_iff in Hne.
  assert (Hf : forall t, filterM (matchesSearch t) (map ofCrypto cs)
                         = Ok (map ofCrypto (filter (matches t) cs))).
  { intros t. apply filterM_map. apply matchesSearch_ofCrypto. }
  unfold searchEffect. rewrite Hc1, Hc2, Hne, !Hf. cbn [bind].
  destruct (truthy_string (searchTerm s1)).
  - cbn [bind]. eexists; eexists. split; [reflexivity|]. split; [reflexivity|].
    cbn [filteredCryptos setFilteredCryptos].
    apply incl_map. intros c Hin. apply filter_In in Hin. destruct Hin as [Hin Hm].
    apply filter_In. split; [exact Hin|]. now apply (matches_narrows _ (searchTerm s2)).
  - eexists; eexists. split; [reflexivity|]. split; [reflexivity|].
    cbn [filteredCryptos setFilteredCryptos].
    apply incl_map. intros c Hin. now apply filter_In in Hin.
Qed.

Lemma matches_tagged (favs : list string) (term : string) (c : Crypto) :
  matches term (tagged favs c) = matches term c.
Proof. reflexivity. Qed.

(** X12. A refresh followed by the search effect it triggers: after a
    successful listing of well-shaped records the filtered view holds the
    freshly tagged records that match the search term, in the order of the
    response, or all of them when the term is empty. *)
Theorem refresh_then_search (favs : list string) (cs : list Crypto) (s : State) :
  let s1 := fetchCryptos favs (Ok {| ok := true; json := Ok (VArr (map ofCrypto cs)) |}) s in
  let kept := if truthy_string (searchTerm s) then filter (matches (searchTerm s)) cs else cs in
  searchEffect s1
  = Ok (setFilteredCryptos (map ofCrypto (map (tagged favs) kept)) s1).
Proof.
  cbv zeta. rewrite (fetchCryptos_installed _ _ _ _ (listing_ofCrypto favs cs)).
  unfold searchEffect.
  cbn [searchTerm cryptos setLoading setFilteredCryptos setCryptos setError].
  destruct (truthy_string (searchTerm s)); [|reflexivity].
  rewrite (filterM_map _ ofCrypto (matches (searchTerm s)))
    by apply matchesSearch_ofCrypto.
  cbn [bind]. do 3 f_equal.
  rewrite filter_map_swap. f_equal.
Qed.

End SearchMore.

(** ** The favorites tab *)

Section TabFacts.
Import CryptoTracker TrackerEffects.

Lemma favoriteRows_ofCrypto (favs : list string) (cs : list Crypto) :
  favoriteRows favs (map ofCrypto cs)
  = Ok (map ofCrypto (filter (fun c => isFavorite favs (id c)) cs)).
Proof.
  unfold favoriteRows. apply filterM_map. intros c. reflexivity.
Qed.

(** X13. On a filtered view of well-shaped records the favorites tab
    lists, in the order of the view, exactly the records whose id is in
    the favorites list, whatever their [favorite] flag says. *)
Theorem favorites_tab_rows (cs : list Crypto) (s : State) :
  filteredCryptos s = map ofCrypto cs ->
  let rows := filter (fun c => isFavorite (favorites s) (id c)) cs in
  favoriteRows (favorites s) (filteredCryptos s) = Ok (map ofCrypto rows) /\
  tabContent FavoritesTab s
  = Ok (CryptoTable (map ofCrypto rows) (loading s)
          (Some "No favorite cryptocurrencies yet. Add some from the All Cryptocurrencies tab.")) /\
  (forall c, In c rows <-> In c cs /\ In (id c) (favorites s)).
Proof.
  intros Hf. cbv zeta. unfold tabContent. rewrite Hf, favoriteRows_ofCrypto.
  split; [reflexivity|]. split; [reflexivity|].
  intros c. now rewrite filter_In, isFavorite_In.
Qed.



Lemma length_filter_out (id : string) (l : list string) :
  NoDup l -> In id l ->
  S (List.length (filter (fun item => negb (String.eqb item id)) l)) = List.length l.
Proof.
  induction l as [|x l IH]; intros Hnd Hin; [destruct Hin|].
  inversion Hnd as [|? ? Hx Hl]; subst. cbn [filter List.length].
  destruct (String.eqb_spec x id) as [->|Hne]; cbn [negb List.length].
  - f_equal. f_equal. apply filter_all.
    intros y Hy. apply differs_iff. congruence.
  - f_equal. apply IH; [exact Hl|]. destruct Hin; [congruence | assumption].
Qed.

(** X15. The exact list after two toggles of the same id: the very list
    when the id was absent; when it was present, the list without the id
    followed by the id, so that a present id moves to the end. *)
Theorem toggle_twice_list (id : string) (favs : list string) :
  (~ In id favs -> toggle id (toggle id favs) = favs) /\
  (In id favs ->
   toggle id (toggle id favs)
   = filter (fun item => negb (String.eqb item id)) favs ++ [id]).
Proof.
  split; [apply toggle_twice_absent|].
  intros Hin. rewrite (toggle_present _ _ Hin). apply toggle_absent.
  rewrite filter_In, differs_iff. tauto.
Qed.

(** X16. A toggle concerns one id only: the other ids keep their
    membership and their relative order, the list grows by one when the
    id was absent, and shrinks by one when it was present in a
    duplicate-free list. *)
Theorem toggle_others (id : string) (favs : list string) :
  (forall x, x <> id -> isFavorite (toggle id favs) x = isFavorite favs x) /\
  filter (fun item => negb (String.eqb item id)) (toggle id favs)
  = filter (fun item => negb (String.eqb item id)) favs /\
  (~ In id favs -> List.length (toggle id favs) = S (List.length favs)) /\
  (NoDup favs -> In id favs -> S (List.length (toggle id favs)) = List.length favs).
Proof.
  split; [|split; [|split]].
  - intros x Hx. apply bool_eq_iff. rewrite !isFavorite_In, toggle_In. tauto.
  - destruct (in_dec string_dec id favs) as [Hin|Hin].
    + rewrite (toggle_present _ _ Hin). apply filter_all.
      intros y Hy. now apply filter_In in Hy.
    + rewrite (toggle_absent _ _ Hin), filter_app. cbn [filter].
      rewrite String.eqb_refl. cbn [negb]. apply app_nil_r.
  - intros Hin. rewrite (toggle_absent _ _ Hin), length_app. cbn. lia.
  - intros Hnd Hin. rewrite (toggle_present _ _ Hin). now apply length_filter_out.
Qed.

(** X17. Toggling a record's id from the table flips the record's
    presence in the favorites tab and leaves the presence of every record
    with another id as it was. *)
Theorem toggle_flips_tab_row (cs : list Crypto) (s : State) (c : Crypto) :
  filteredCryptos s = map ofCrypto cs ->
  In c cs ->
  let rows t := filter (fun x => isFavorite (favorites t) (id x)) cs in
  let s' := toggleFavorite (id c) s in
  favoriteRows (favorites s') (filteredCryptos s') = Ok (map ofCrypto (rows s')) /\
  (In c (rows s') <-> ~ In c (rows s)) /\
  (forall x, id x <> id c -> (In x (rows s') <-> In x (rows s))).
Proof.
  intros Hf Hc. cbv zeta. split; [|split].
  - cbn [toggleFavorite setFavorites filteredCryptos favorites].
    rewrite Hf. apply favoriteRows_ofCrypto.
  - rewrite !filter_In, !isFavorite_In.
    cbn [toggleFavorite setFavorites favorites]. rewrite toggle_In. tauto.
  - intros x Hx. rewrite !filter_In, !isFavorite_In.
    cbn [toggleFavorite setFavorites favorites]. rewrite toggle_In. tauto.
Qed.

End TabFacts.

(** ** The historical series and the detail view *)

Section DetailMore.
Import PriceChart CryptoDetail DetailView.

Lemma fetchHistoricalData_installed (range : TimeRange) (fetched : result Response)
      (s : State) (points : list (point jsval)) :
  history fetched = Ok points ->
  fetchHistoricalData range fetched s = setTimeRange range (setChartData points s).
Proof. intros Hh. unfold fetchHistoricalData. now rewrite Hh. Qed.

Lemma history_pairs (ps : list (string * jsval)) (pairs : list (jsval * jsval)) :
  own "prices" ps = VArr (map (fun tp => VArr [fst tp; snd tp]) pairs) ->
  history (Ok {| ok := true; json := Ok (VObj ps) |})
  = Ok (map (fun tp => {| time := fst tp; price := snd tp |}) pairs).
Proof.
  intros Hp. unfold history. cbn [bind ok json negb getField]. rewrite Hp.
  cbn [map_of]. apply mapM_map. intros [t p]. reflexivity.
Qed.

(** X18. A successful chart response whose [prices] property is an array
    of [[time, price]] pairs installs one chart point per pair, in the
    order of the response, and selects the requested range; the error, the
    detail payload, the loading flag and the console stay as they were. *)
Theorem history_success (range : TimeRange) (ps : list (string * jsval))
        (pairs : list (jsval * jsval)) (s : State) :
  own "prices" ps = VArr (map (fun tp => VArr [fst tp; snd tp]) pairs) ->
  let s' := fetchHistoricalData range (Ok {| ok := true; json := Ok (VObj ps) |}) s in
  chartData s' = map (fun tp => {| time := fst tp; price := snd tp |}) pairs /\
  List.length (chartData s') = List.length pairs /\
  timeRange s' = range /\
  error s' = error s /\ detailData s' = detailData s /\ loading s' = loading s /\
  console s' = console s.
Proof.
  intros Hp. cbv zeta.
  rewrite (fetchHistoricalData_installed _ _ _ _ (history_pairs ps pairs Hp)).
  cbn [chartData timeRange error detailData loading console setTimeRange setChartData].
  rewrite length_map. repeat split.
Qed.

Lemma mapM_first_throws {A B : Type} (f : A -> result B) (x : A) (l : list A) (e : thrown) :
  f x = Throw e -> mapM f (x :: l) = Throw e.
Proof. intros Hf. cbn [mapM]. now rewrite Hf. Qed.

(** X19. The chart data and the selected range change together or not at
    all: [fetchHistoricalData] either installs the points of the response
    with the requested range and prints nothing, or keeps both and prints
    the error; in neither case does it touch the error state, the detail
    payload or the loading flag. *)
Theorem history_all_or_nothing (range : TimeRange) (fetched : result Response) (s : State) :
  let s' := fetchHistoricalData range fetched s in
  error s' = error s /\ detailData s' = detailData s /\ loading s' = loading s /\
  ((exists points, history fetched = Ok points /\
      chartData s' = points /\ timeRange s' = range /\ console s' = console s) \/
   (exists e, history fetched = Throw e /\
      chartData s' = chartData s /\ timeRange s' = timeRange s /\
      console s' = console s ++ [("Error fetching historical data:", e)])).
Proof.
  cbv zeta. destruct (history fetched) as [points|e] eqn:Hh.
  - rewrite (fetchHistoricalData_installed _ _ _ _ Hh).
    repeat (split; [reflexivity|]). left. now exists points.
  - rewrite (fetchHistoricalData_thrown _ _ _ _ Hh).
    repeat (split; [reflexivity|]). right. now exists e.
Qed.

(** X20. The chart request fails, and so installs nothing, when the
    request is rejected, when the status is not a success, when the body is
    not JSON, when the parsed body has no [prices] property or one that is
    not an array, and when the first entry of [prices] is [null]. *)
Theorem history_failures (fetched : result Response) :
  (forall e, fetched = Throw e -> history fetched = Throw e) /\
  (forall r, fetched = Ok r -> ok r = false ->
     history fetched = Throw (ErrorObj "Failed to fetch chart data")) /\
  (forall r e, fetched = Ok r -> ok r = true -> json r = Throw e ->
     history fetched = Throw e) /\
  (forall r ps, fetched = Ok r -> ok r = true -> json r = Ok (VObj ps) ->
     lookup "prices" ps = None -> exists e, history fetched = Throw e) /\
  (forall r ps v, fetched = Ok r -> ok r = true -> json r = Ok (VObj ps) ->
     lookup "prices" ps = Some v -> (forall items, v <> VArr items) ->
     exists e, history fetched = Throw e) /\
  (forall r ps items, fetched = Ok r -> ok r = true -> json r = Ok (VObj ps) ->
     lookup "prices" ps = Some (VArr (VNull :: items)) ->
     exists e, history fetched = Throw e).
Proof.
  split; [|split; [|split; [|split; [|split]]]].
  - intros e ->. reflexivity.
  - intros r -> Hok. unfold history. cbn [bind]. now rewrite Hok.
  - intros r e -> Hok Hj. unfold history. cbn [bind]. now rewrite Hok, Hj.
  - intros r ps -> Hok Hj Hp. unfold history. cbn [bind]. rewrite Hok, Hj.
    cbn [negb bind getField]. unfold own. rewrite Hp. cbn [map_of]. eauto.
  - intros r ps v -> Hok Hj Hp Hv. unfold history. cbn [bind]. rewrite Hok, Hj.
    cbn [negb bind getField]. unfold own. rewrite Hp.
    destruct v; cbn [map_of]; eauto. now destruct (Hv elems).
  - intros r ps items -> Hok Hj Hp. unfold history. cbn [bind]. rewrite Hok, Hj.
    cbn [negb bind getField]. unfold own. rewrite Hp. cbn [map_of].
    eexists. apply mapM_first_throws. reflexivity.
Qed.

(** X21. [fetchCryptoDetail] always ends with the loading flag off.  When
    the detail request fails, the outcome of the chart request plays no
    part, and the detail payload, the chart data, the selected range and
    the console stay as they were.  When both requests succeed, the new
    payload and the new points are installed, the range is the one
    selected before, and the error is empty. *)
Theorem fetchCryptoDetail_outcomes (fetched fetchedHistory : result Response) (s : State) :
  let s' := fetchCryptoDetail fetched fetchedHistory s in
  loading s' = false /\
  (forall e, detail fetched = Throw e ->
     (forall other, fetchCryptoDetail fetched other s = s') /\
     detailData s' = detailData s /\ chartData s' = chartData s /\
     timeRange s' = timeRange s /\ console s' = console s) /\
  (forall v points, detail fetched = Ok v -> history fetchedHistory = Ok points ->
     detailData s' = v /\ chartData s' = points /\ timeRange s' = timeRange s /\
     error s' = None /\ console s' = console s).
Proof.
  cbv zeta. split; [reflexivity|]. split.
  - intros e He. unfold fetchCryptoDetail. rewrite He. repeat split.
  - intros v points Hd Hh. unfold fetchCryptoDetail. rewrite Hd.
    rewrite (fetchHistoricalData_installed _ _ _ _ Hh). repeat split.
Qed.

(** X22. The next render of the detail component after
    [fetchCryptoDetail], up to the header percentage: it returns the
    error panel with the message when the detail request failed with a
    non-empty message, even if an earlier payload is still held; it
    returns nothing when the request delivered a falsy value; when it
    delivered a truthy value no early return is taken, whether the chart
    request succeeded or failed, and the percentage is read from the new
    payload for the range selected before, which throws when the payload
    is an object without [market_data]. *)
Theorem render_after_fetchCryptoDetail (fetched fetchedHistory : result Response)
        (s : State) :
  let s' := fetchCryptoDetail fetched fetchedHistory s in
  (forall e, detail fetched = Throw e -> errorMessage e <> EmptyString ->
     renderHead s' = Ok (inl (ErrorPanel (errorMessage e)))) /\
  (forall v, detail fetched = Ok v -> truthy v = false ->
     renderHead s' = Ok (inl Nothing)) /\
  (forall v, detail fetched = Ok v -> truthy v = true ->
     earlyReturn s' = None /\
     renderHead s'
     = (percent <- priceChangePercent v (timeRange s) ;; Ok (inr percent))) /\
  (forall d, detail fetched = Ok (VObj d) -> lookup "market_data" d = None ->
     exists e, renderHead s' = Throw e).
Proof.
  cbv zeta.
  assert (Hok : forall v, detail fetched = Ok v ->
            loading (fetchCryptoDetail fetched fetchedHistory s) = false /\
            error (fetchCryptoDetail fetched fetchedHistory s) = None /\
            detailData (fetchCryptoDetail fetched fetchedHistory s) = v /\
            timeRange (fetchCryptoDetail fetched fetchedHistory s) = timeRange s).
  { intros v Hd. unfold fetchCryptoDetail. rewrite Hd.
    destruct (history fetchedHistory) as [points|e] eqn:Hh.
    - rewrite (fetchHistoricalData_installed _ _ _ _ Hh). repeat split.
    - rewrite (fetchHistoricalData_thrown _ _ _ _ Hh). repeat split. }
  assert (Htruthy : forall v, detail fetched = Ok v -> truthy v = true ->
            earlyReturn (fetchCryptoDetail fetched fetchedHistory s) = None /\
            renderHead (fetchCryptoDetail fetched fetchedHistory s)
            = (percent <- priceChangePercent v (timeRange s) ;; Ok (inr percent))).
  { intros v Hd Hv. destruct (Hok v Hd) as [Hl [He [Hdd Hr]]].
    assert (Hnone : earlyReturn (fetchCryptoDetail fetched fetchedHistory s) = None).
    { unfold earlyReturn. now rewrite Hl, He, Hdd, Hv. }
    split; [exact Hnone|]. unfold renderHead. now rewrite Hnone, Hdd, Hr. }
  split; [|split; [|split]].
  - intros e He Hne. apply truthy_string_iff in Hne.
    unfold fetchCryptoDetail. rewrite He. unfold renderHead, earlyReturn.
    cbn [loading error setLoading setError]. now rewrite Hne.
  - intros v Hd Hv. destruct (Hok v Hd) as [Hl [He [Hdd _]]].
    unfold renderHead, earlyReturn. now rewrite Hl, He, Hdd, Hv.
  - exact Htruthy.
  - intros d Hd Hmd. destruct (Htruthy (VObj d) Hd eq_refl) as [_ ->].
    unfold priceChangePercent. cbn [getField bind]. unfold own. rewrite Hmd.
    cbn. eauto.
Qed.

(** X23. The header percentage on incomplete payloads: reading it throws
    when the payload is [null] or has no [market_data]; it is [undefined]
    when [market_data] is an object without the field of the selected
    range, in particular for [90d] when only a [90d] field is present. *)
Theorem priceChangePercent_missing (r : TimeRange) :
  (exists e, priceChangePercent VNull r = Throw e) /\
  (forall d, lookup "market_data" d = None ->
     exists e, priceChangePercent (VObj d) r = Throw e) /\
  (forall d md, lookup "market_data" d = Some (VObj md) ->
     lookup (priceChangeKey r) md = None ->
     priceChangePercent (VObj d) r = Ok VUndefined) /\
  (forall d x, lookup "market_data" d
               = Some (VObj [("price_change_percentage_90d", x)]) ->
     priceChangePercent (VObj d) R90d = Ok VUndefined).
Proof.
  unfold priceChangePercent. split; [|split; [|split]].
  - cbn. eauto.
  - intros d Hd. cbn [getField bind]. unfold own. rewrite Hd. cbn. eauto.
  - intros d md Hd Hk. cbn [getField bind].
    replace (own "market_data" d) with (VObj md) by (unfold own; now rewrite Hd).
    cbn [getField bind]. unfold own. now rewrite Hk.
  - intros d x Hd. cbn [getField bind].
    replace (own "market_data" d) with (VObj [("price_change_percentage_90d", x)])
      by (unfold own; now rewrite Hd).
    reflexivity.
Qed.

End DetailMore.

(** ** The further properties on the sample data *)

Lemma withFavorite_object_witness :
  exists ps',
    CryptoTracker.withFavorite ["ethereum"]
      (VObj [("id", VStr "ethereum"); ("name", VStr "Ethereum")]) = Ok (VObj ps') /\
    own "favorite" ps' = VBool true /\
    own "name" ps' = VStr "Ethereum".
Proof.
  destruct (withFavorite_object ["ethereum"]
              [("id", VStr "ethereum"); ("name", VStr "Ethereum")])
    as [ps' [Hok [Hfav [Hother _]]]].
  exists ps'. split; [exact Hok|]. split; [exact Hfav|].
  apply (Hother "name"). discriminate.
Defined.

Lemma fetchCryptos_frame_witness :
  let s' := CryptoTracker.fetchCryptos ["ethereum"] MoreSamples.listing_response
              Samples.snapshot in
  CryptoTracker.filteredCryptos s' = CryptoTracker.cryptos s'.
Proof.
  refine (proj2 (proj2 (proj2 (proj2 (proj2
    (fetchCryptos_frame ["ethereum"] MoreSamples.listing_response Samples.snapshot))))) _).
  reflexivity.
Defined.

Lemma favoritesEffect_retags_witness :
  let after := TrackerEffects.favoritesEffect TrackerEffects.emptyStorage Samples.snapshot in
  snd after
  = Ok (CryptoTracker.setCryptos
          (map CryptoTracker.ofCrypto
             (map (TrackerEffects.tagged ["ethereum"]) [Samples.bitcoin; Samples.ethereum]))
          Samples.snapshot) /\
  TrackerEffects.getItem (fst after) "cryptoFavorites" = Some (JSON_stringify ["ethereum"]).
Proof.
  destruct (favoritesEffect_retags [Samples.bitcoin; Samples.ethereum]
              TrackerEffects.emptyStorage Samples.snapshot eq_refl) as [Hs [Hk _]].
  split; [exact Hs | exact Hk].
Defined.

Lemma saved_favorites_load_witness :
  TrackerEffects.loadSavedFavorites
    (fst (TrackerEffects.favoritesEffect TrackerEffects.emptyStorage Samples.snapshot))
  = Ok (Some (VArr [VStr "ethereum"])).
Proof.
  apply (saved_favorites_load TrackerEffects.emptyStorage Samples.snapshot).
  - vm_compute. discriminate.
  - vm_compute. reflexivity.
Defined.

Lemma searchEffect_shape_witness :
  Forall (fun c => exists n, getField c "name" = Ok (VStr n))
         (CryptoTracker.cryptos (Samples.searching "ETH")).
Proof.
  destruct (searchEffect_shape (Samples.searching "ETH")) as [_ Hok].
  refine (proj2 (proj2 (proj2 (proj2 (proj2 (Hok _ eq_refl))))) _).
  discriminate.
Defined.

(** After the listing of C6's counterexample has been installed, any
    search makes the search effect throw. *)
Example search_after_malformed_listing :
  exists e,
    CryptoTracker.searchEffect
      (CryptoTracker.fetchCryptos [] Samples.not_a_listing (Samples.searching "eth"))
    = Throw e.
Proof. vm_compute. eauto. Qed.

Lemma search_narrows_witness :
  exists s1' s2',
    CryptoTracker.searchEffect (Samples.searching "t") = Ok s1' /\
    CryptoTracker.searchEffect (Samples.searching "ETH") = Ok s2' /\
    incl (CryptoTracker.filteredCryptos s2') (CryptoTracker.filteredCryptos s1').
Proof.
  apply (search_narrows [Samples.bitcoin; Samples.ethereum]
           (Samples.searching "t") (Samples.searching "ETH")).
  - reflexivity.
  - reflexivity.
  - discriminate.
  - exists "e", "h". reflexivity.
Defined.

Lemma favorites_tab_rows_witness :
  TrackerEffects.tabContent TrackerEffects.FavoritesTab Samples.snapshot
  = Ok (TrackerEffects.Rows [CryptoTracker.ofCrypto Samples.ethereum]).
Proof.
  exact (proj1 (proj2 (favorites_tab_rows [Samples.bitcoin; Samples.ethereum]
                         Samples.snapshot eq_refl))).
Defined.


Lemma toggle_twice_list_witness :
  CryptoTracker.toggle "bitcoin" (CryptoTracker.toggle "bitcoin" ["bitcoin"; "ethereum"])
  = ["ethereum"; "bitcoin"].
Proof.
  refine (proj2 (toggle_twice_list "bitcoin" ["bitcoin"; "ethereum"]) _).
  now left.
Defined.

Lemma toggle_others_witness :
  S (List.length (CryptoTracker.toggle "bitcoin" ["bitcoin"; "ethereum"])) = 2 /\
  CryptoTracker.isFavorite (CryptoTracker.toggle "bitcoin" ["bitcoin"; "ethereum"]) "ethereum"
  = true.
Proof.
  destruct (toggle_others "bitcoin" ["bitcoin"; "ethereum"]) as [Hmem [_ [_ Hlen]]].
  split.
  - apply Hlen; [|now left].
    repeat constructor; cbn; intuition discriminate.
  - apply (Hmem "ethereum"). discriminate.
Defined.

Lemma toggle_flips_tab_row_witness :
  TrackerEffects.favoriteRows
    (CryptoTracker.favorites (CryptoTracker.toggleFavorite "bitcoin" Samples.snapshot))
    (CryptoTracker.filteredCryptos (CryptoTracker.toggleFavorite "bitcoin" Samples.snapshot))
  = Ok (map CryptoTracker.ofCrypto [Samples.bitcoin; Samples.ethereum]).
Proof.
  refine (proj1 (toggle_flips_tab_row [Samples.bitcoin; Samples.ethereum]
                   Samples.snapshot Samples.bitcoin eq_refl _)).
  now left.
Defined.

Lemma history_success_witness :
  let s' := CryptoDetail.fetchHistoricalData R24h MoreSamples.chart_response Samples.showing in
  CryptoDetail.chartData s'
  = [ {| PriceChart.time := VNum 1704067200000%Q; PriceChart.price := VNum 64000%Q |};
      {| PriceChart.time := VNum 1704070800000%Q; PriceChart.price := VNum 64250.5%Q |} ] /\
  CryptoDetail.timeRange s' = R24h.
Proof.
  destruct (history_success R24h MoreSamples.chart_body MoreSamples.chart_pairs
              Samples.showing eq_refl) as [Hc [_ [Hr _]]].
  split; [exact Hc | exact Hr].
Defined.

Lemma history_failures_witness :
  CryptoDetail.history Samples.too_many_requests
  = Throw (ErrorObj "Failed to fetch chart data") /\
  (exists e, CryptoDetail.history MoreSamples.detail_response = Throw e).
Proof.
  split.
  - exact (proj1 (proj2 (history_failures Samples.too_many_requests)) _ eq_refl eq_refl).
  - exact (proj1 (proj2 (proj2 (proj2 (history_failures MoreSamples.detail_response))))
             _ _ eq_refl eq_refl eq_refl eq_refl).
Defined.

Lemma fetchCryptoDetail_outcomes_witness :
  let s' := CryptoDetail.fetchCryptoDetail MoreSamples.detail_response
              MoreSamples.chart_response CryptoDetail.initialState in
  CryptoDetail.detailData s' = Samples.detail_payload /\
  List.length (CryptoDetail.chartData s') = 2 /\
  CryptoDetail.timeRange s' = R7d.
Proof.
  destruct (fetchCryptoDetail_outcomes MoreSamples.detail_response
              MoreSamples.chart_response CryptoDetail.initialState) as [_ [_ Hok]].
  destruct (Hok Samples.detail_payload _ eq_refl eq_refl) as [Hd [Hc [Hr _]]].
  split; [exact Hd|]. split; [|exact Hr].
  rewrite Hc. reflexivity.
Defined.

Lemma render_after_fetchCryptoDetail_witness :
  DetailView.renderHead
    (CryptoDetail.fetchCryptoDetail Samples.too_many_requests MoreSamples.chart_response
       Samples.showing)
  = Ok (inl (DetailView.ErrorPanel
               "Failed to fetch detailed data. API rate limit may have been reached.")) /\
  DetailView.renderHead
    (CryptoDetail.fetchCryptoDetail MoreSamples.detail_response Samples.too_many_requests
       CryptoDetail.initialState)
  = Ok (inr (VNum 3.5%Q)) /\
  (exists e,
     DetailView.renderHead
       (CryptoDetail.fetchCryptoDetail MoreSamples.chart_response MoreSamples.chart_response
          CryptoDetail.initialState)
     = Throw e).
Proof.
  split; [|split].
  - refine (proj1 (render_after_fetchCryptoDetail Samples.too_many_requests
                     MoreSamples.chart_response Samples.showing) _ eq_refl _).
    discriminate.
  - exact (proj2 (proj1 (proj2 (proj2 (render_after_fetchCryptoDetail
                                         MoreSamples.detail_response
                                         Samples.too_many_requests
                                         CryptoDetail.initialState)))
                    _ eq_refl eq_refl)).
  - exact (proj2 (proj2 (proj2 (render_after_fetchCryptoDetail MoreSamples.chart_response
                                  MoreSamples.chart_response CryptoDetail.initialState)))
             _ eq_refl eq_refl).
Defined.

Lemma priceChangePercent_missing_witness :
  (exists e, CryptoDetail.priceChangePercent (VObj [("id", VStr "bitcoin")]) R7d = Throw e) /\
  CryptoDetail.priceChangePercent
    (VObj [("market_data", VObj [("price_change_percentage_90d", VNum 99%Q)])]) R90d
  = Ok VUndefined.
Proof.
  destruct (priceChangePercent_missing R7d) as [_ [Hmd _]].
  destruct (priceChangePercent_missing R90d) as [_ [_ [_ H90]]].
  split.
  - apply Hmd. reflexivity.
  - apply (H90 _ (VNum 99%Q)). reflexivity.
Defined.

(** ** The chart drawn from a chart response *)

Section ChartAfterHistory.
Context `{PriceChart.DateLocale jsval}.
Import PriceChart CryptoDetail.

(** X24. The chart is reduced for the range its data was fetched for:
    after a successful chart response of [n] pairs for a range, the chart
    drawn from the state shows [ceil (n / step)] prices for the [step] of
    that range, the [k]-th being the price of the pair at index
    [k * step]. *)
Theorem chart_after_history (range : TimeRange) (ps : list (string * jsval))
        (pairs : list (jsval * jsval)) (s : State) :
  own "prices" ps = VArr (map (fun tp => VArr [fst tp; snd tp]) pairs) ->
  let s' := fetchHistoricalData range (Ok {| ok := true; json := Ok (VObj ps) |}) s in
  let out := getReducedData (chartData s') (timeRange s') in
  let n := List.length pairs in
  List.length (prices out) = ceil_div n (step range n) /\
  (forall k, nth_error (prices out) k = option_map snd (nth_error pairs (k * step range n))).
Proof.
  intros Hp. cbv zeta.
  rewrite (fetchHistoricalData_installed _ _ _ _ (history_pairs ps pairs Hp)).
  cbn [chartData timeRange setTimeRange setChartData].
  set (points := map (fun tp => {| time := fst tp; price := snd tp |}) pairs).
  assert (Hn : List.length points = List.length pairs) by apply length_map.
  destruct (reduced_prices_labels points range) as [Hprices _].
  pose proof (step_ge_1 range (List.length points)) as Hs.
  rewrite Hprices. split.
  - now rewrite length_map, kept_length, Hn.
  - intros k. rewrite nth_error_map. unfold filter_index.
    rewrite (filter_index_from_nth _ _ 0 0 k (next_kept_start _ Hs)).
    rewrite Hn. cbn [Nat.add]. unfold points. rewrite nth_error_map.
    now destruct (nth_error pairs (k * step range (List.length pairs))).
Qed.

End ChartAfterHistory.

Lemma chart_after_history_witness :
  let s' := CryptoDetail.fetchHistoricalData R24h MoreSamples.chart_response Samples.showing in
  let out := PriceChart.getReducedData (CryptoDetail.chartData s') (CryptoDetail.timeRange s') in
  List.length (PriceChart.prices out) = 2 /\
  nth_error (PriceChart.prices out) 1 = Some (VNum 64250.5%Q).
Proof.
  destruct (chart_after_history R24h MoreSamples.chart_body MoreSamples.chart_pairs
              Samples.showing eq_refl) as [Hlen Hnth].
  split; [exact Hlen | exact (Hnth 1)].
Defined.
